(** * Tessa FastAPI server: the Figma summary extractor, the PDF report
      paginator and the [/analysis] handler of [FastAPI/main.py].

    The Python code is embedded shallowly.  JSON values are an inductive
    type, Python's dynamic failures ([AttributeError], [TypeError]) are the
    errors of a small result monad, the reportlab canvas is a record holding
    the operator stream of the current page and the pages already emitted,
    and the two outbound services are oracles whose calls are logged. *)

From Stdlib Require Import List String Ascii ZArith QArith Bool Arith Lia.
From Stdlib Require Import DecimalString DecimalZ.
Import ListNotations.

Local Open Scope string_scope.
Local Open Scope list_scope.

(* ================================================================== *)
(** * Python values *)

Module Py.

(** What [res.json()] returns: [None], [bool], [int], [float], [str],
    [list] and [dict].  A [dict] keeps its insertion order, so it is an
    association list; keys are looked up from the front.  A float is kept as
    the rational it denotes (the extractor only ever tests it for zero). *)
#[warnings="-register-all"] Inductive json : Type :=
| JNull
| JBool (b : bool)
| JInt (z : Z)
| JFloat (q : Q)
| JStr (s : string)
| JArr (items : list json)
| JObj (fields : list (string * json)).

(** The exceptions the extractor can run into. *)
Inductive exn : Type :=
| AttributeError   (* [.get] or [.keys] on a value that is not a dict *)
| TypeError.       (* iterating or slicing a value that does not allow it *)

Inductive result (A : Type) : Type :=
| Ok (a : A)
| Raise (e : exn).
Arguments Ok {A} a.
Arguments Raise {A} e.

Definition bind {A B} (m : result A) (k : A -> result B) : result B :=
  match m with
  | Ok a => k a
  | Raise e => Raise e
  end.

Notation "x <- m ;; k" := (bind m (fun x => k))
  (at level 61, m at next level, right associativity).

(** A [for] loop whose body builds one entry and appends it. *)
Fixpoint mapM {A B} (f : A -> result B) (l : list A) : result (list B) :=
  match l with
  | [] => Ok []
  | x :: l' => y <- f x ;; ys <- mapM f l' ;; Ok (y :: ys)
  end.

Fixpoint lookup (key : string) (fields : list (string * json)) : option json :=
  match fields with
  | [] => None
  | (k, v) :: rest => if String.eqb k key then Some v else lookup key rest
  end.

(** [v.get(key, default)]. *)
Definition dict_get (v : json) (key : string) (default : json) : result json :=
  match v with
  | JObj fields =>
      match lookup key fields with
      | Some x => Ok x
      | None => Ok default
      end
  | _ => Raise AttributeError
  end.

(** Truth value of [v] in an [if]. *)
Definition truthy (v : json) : bool :=
  match v with
  | JNull => false
  | JBool b => b
  | JInt z => negb (Z.eqb z 0)
  | JFloat q => negb (Z.eqb (Qnum q) 0)
  | JStr s => negb (String.eqb s "")
  | JArr items => match items with [] => false | _ => true end
  | JObj fields => match fields with [] => false | _ => true end
  end.

Definition chars (s : string) : list json :=
  map (fun c => JStr (String c EmptyString)) (list_ascii_of_string s).

(** [for x in v]: a list yields its items, a dict its keys, a str its
    characters; nothing else is iterable. *)
Definition iterate (v : json) : result (list json) :=
  match v with
  | JArr items => Ok items
  | JObj fields => Ok (map (fun kv => JStr (fst kv)) fields)
  | JStr s => Ok (chars s)
  | _ => Raise TypeError
  end.

(** [v[:n]]: lists and strs are sliced; a dict is subscripted with the slice
    as a key, which fails (with [TypeError], or [KeyError] on the
    interpreters where a slice is hashable: the model keeps one of them);
    the other values are not subscriptable. *)
Definition slice_to (n : nat) (v : json) : result json :=
  match v with
  | JArr items => Ok (JArr (firstn n items))
  | JStr s => Ok (JStr (substring 0 n s))
  | _ => Raise TypeError
  end.

(** [list(v.keys())]. *)
Definition keys (v : json) : result (list json) :=
  match v with
  | JObj fields => Ok (map (fun kv => JStr (fst kv)) fields)
  | _ => Raise AttributeError
  end.

End Py.

(* ================================================================== *)
(** * The summary extractor ([extract_figma_summary], lines 81-114) *)

Module Extractor.
Import Py.

(** Lines 99-104: one entry per second-level child. *)
Definition frame_info (child : json) : result json :=
  name <- dict_get child "name" JNull ;;
  type <- dict_get child "type" JNull ;;
  background <- dict_get child "backgroundColor" JNull ;;
  Ok (JObj [("name", name); ("type", type); ("background", background)]).

(** Lines 91-106: one entry per first-level child, with the entries of its
    first 20 children. *)
Definition page_info (page : json) : result json :=
  name <- dict_get page "name" JNull ;;
  type <- dict_get page "type" JNull ;;
  children <- dict_get page "children" (JArr []) ;;
  first20 <- slice_to 20 children ;;
  nodes <- iterate first20 ;;
  frames <- mapM frame_info nodes ;;
  Ok (JObj [("name", name); ("type", type); ("frames", JArr frames)]).

(** Lines 110 and 111: [list(data.get(key, {}).keys())[:10] if data.get(key)
    else []]. *)
Definition style_keys (data : json) (key : string) : result (list json) :=
  present <- dict_get data key JNull ;;
  if truthy present then
    mapping <- dict_get data key (JObj []) ;;
    ks <- keys mapping ;;
    Ok (firstn 10 ks)
  else Ok [].

Definition extract_figma_summary (data : json) : result json :=
  name <- dict_get data "name" (JStr "Unknown") ;;
  version <- dict_get data "version" (JStr "Unknown") ;;
  doc <- dict_get data "document" (JObj []) ;;
  children <- dict_get doc "children" (JArr []) ;;
  nodes <- iterate children ;;
  pages <- mapM page_info nodes ;;
  colors <- style_keys data "styles" ;;
  text_styles <- style_keys data "componentSets" ;;
  Ok (JObj [("name", name); ("version", version); ("pages", JArr pages);
            ("styles", JObj [("colors", JArr colors);
                             ("text_styles", JArr text_styles)])]).

End Extractor.

(* ================================================================== *)
(** * The report canvas and the paginator (lines 148-173) *)

Module Report.

(** Texts are [string]s: a character of the model is an [ascii] and
    [String.length] stands for [len].

    The part of reportlab's [Canvas] the handler uses.  [code] is the
    operator stream of the page being drawn, [pages] the pages already
    emitted, oldest first. *)
Inductive op : Type :=
| SetFont (psfontname : string) (size : Z)
| DrawString (x y : Z) (text : string).

Definition page : Type := list op.

Record canvas : Type := Canvas { code : list op; pages : list page }.

Definition new_canvas : canvas := Canvas [] [].

Definition setFont (psfontname : string) (size : Z) (pdf : canvas) : canvas :=
  Canvas (code pdf ++ [SetFont psfontname size]) (pages pdf).

Definition drawString (x y : Z) (text : string) (pdf : canvas) : canvas :=
  Canvas (code pdf ++ [DrawString x y text]) (pages pdf).

(** [showPage] closes the current page; the next one starts with an empty
    stream and the canvas's initial graphics state. *)
Definition showPage (pdf : canvas) : canvas :=
  Canvas [] (pages pdf ++ [code pdf]).

(** [save] emits the page in progress when something was written on it; the
    document is the sequence of emitted pages. *)
Definition save (pdf : canvas) : list page :=
  match code pdf with
  | [] => pages pdf
  | _ :: _ => pages (showPage pdf)
  end.

(** What a reader sees on a page: every string with the font in force where
    it is drawn.  A page starts in the canvas's initial font. *)
Record placement : Type :=
  Placement { p_font : string; p_size : Z; p_x : Z; p_y : Z; p_text : string }.

Fixpoint placements_from (font : string) (size : Z) (ops : list op)
  : list placement :=
  match ops with
  | [] => []
  | SetFont f s :: rest => placements_from f s rest
  | DrawString x y t :: rest =>
      Placement font size x y t :: placements_from font size rest
  end.

Definition placements (p : page) : list placement :=
  placements_from "Helvetica" 12 p.

Definition newline : ascii := "010"%char.

(** [text.split("\n")]: never empty, one more piece than there are line
    feeds. *)
Fixpoint split (text : string) : list string :=
  match text with
  | EmptyString => [EmptyString]
  | String c rest =>
      if Ascii.eqb c newline then EmptyString :: split rest
      else match split rest with
           | [] => [String c EmptyString]
           | line :: lines => String c line :: lines
           end
  end.

(** Lines 167-168. *)
Definition truncate (line : string) : string :=
  if Nat.ltb 90 (String.length line)
  then (substring 0 87 line ++ "...")%string
  else line.

(** One turn of the loop of lines 160-171 on the canvas and [y_position]. *)
Definition draw_line (st : canvas * Z) (line : string) : canvas * Z :=
  let '(pdf, y_position) := st in
  let '(pdf, y_position) :=
    if (y_position <? 50)%Z
    then (setFont "Helvetica" 10 (showPage pdf), 800%Z)
    else (pdf, y_position) in
  let line := truncate line in
  (drawString 40 y_position line pdf, (y_position - 15)%Z).

Definition draw_lines (lines : list string) (st : canvas * Z) : canvas * Z :=
  fold_left draw_line lines st.

Definition title : string := "Figma Design Analysis Report".

(** Lines 149-173: title, body, [save]. *)
Definition build_pdf (analysis_text : string) : list page :=
  let pdf := new_canvas in
  let pdf := setFont "Helvetica-Bold" 16 pdf in
  let pdf := drawString 40 800 title pdf in
  let pdf := setFont "Helvetica" 10 pdf in
  let y_position := 770%Z in
  save (fst (draw_lines (split analysis_text) (pdf, y_position))).

(** The analysis lines of a page are the strings set in the body font; the
    title is set in another. *)
Definition is_body (p : placement) : bool :=
  String.eqb (p_font p) "Helvetica" && Z.eqb (p_size p) 10.

Definition analysis_lines (p : page) : list placement :=
  filter is_body (placements p).

(** All analysis lines of a document, page after page, each page from its
    first string to its last. *)
Definition placed_lines (doc : list page) : list string :=
  map p_text (flat_map analysis_lines doc).

Definition first_line_offset (p : page) : option Z :=
  option_map p_y (hd_error (analysis_lines p)).

End Report.

(* ================================================================== *)
(** * The [/analysis] handler ([analyze_figma], lines 65-181) *)

Module Handler.
Import Py.

(** The three settings read from the environment at start-up; [os.getenv]
    gives [None] for a variable that is not set. *)
Record env : Type :=
  Env { GEMINI_API_KEY : option string;
        FIGMA_TOKEN : option string;
        FILE_KEY : option string }.

(** [not v] for a setting: unset or empty. *)
Definition unset (v : option string) : bool :=
  match v with
  | None => true
  | Some s => String.eqb s ""
  end.

Definition text_of (v : option string) : string :=
  match v with
  | None => "None"
  | Some s => s
  end.

(** Outcome of [requests.get]: a response with its status and, when the body
    parses, the value [res.json()] gives; or no response at all. *)
Inductive fetched : Type :=
| Responded (status_code : Z) (body : option json)
| NoResponse.

(** What iterating the streamed generation delivers: text chunks, then the
    end of the stream or an exception with its message. *)
Inductive stream : Type :=
| StreamEnd
| Chunk (text : string) (rest : stream)
| StreamError (message : string).

(** The outbound calls, in the order they are issued. *)
Inductive call : Type :=
| FigmaGet (url : string) (headers : list (string * string))
| GeminiGenerate (model prompt : string).

(** An exception that leaves the handler. *)
Inductive failure : Type :=
| RequestFailed
| InvalidBody
| SummaryFailed (e : exn).

Inductive response : Type :=
| JsonPayload (payload : json)
| Document (content : list Report.page) (media_type : string)
    (headers : list (string * string))
| Unhandled (f : failure).

(** Lines 142-146: the chunks with a non-empty text are appended in arrival
    order; an exception discards what was collected. *)
Fixpoint collect (analysis_text : string) (chunks : stream)
  : string + string :=
  match chunks with
  | StreamEnd => inl analysis_text
  | Chunk text rest =>
      collect (if String.eqb text "" then analysis_text
               else (analysis_text ++ text)%string) rest
  | StreamError message => inr message
  end.

Definition nl : string := String Report.newline EmptyString.

Section Services.

Variable requests_get : string -> list (string * string) -> fetched.
Variable generate_content : string -> string -> stream.
Variable json_dumps : json -> string.

(** Lines 120-136. *)
Definition prompt_of (figma_summary : json) : string :=
  String.concat nl
    [ "";
      "    You are a UI/UX design analyst. I will give you a summarized Figma file structure.";
      "    Extract useful insights and provide:";
      "    ";
      "    1. **Screens Summary**: List all pages and main frames/screens found";
      "    2. **Design Patterns**: Identify common patterns in naming and structure";
      "    3. **Color Usage**: Analyze color themes if present";
      "    4. **Components**: List repeated components or frames";
      "    5. **UX Observations**: Note any structural issues or good practices";
      "    6. **Recommendations**: Provide 3-5 actionable improvement suggestions";
      "    ";
      "    Respond as a structured analysis report with clear sections and bulletpoints.";
      "    Be specific and actionable.";
      "    ";
      "    Here is the Figma file summary:";
      ("    " ++ json_dumps figma_summary)%string;
      "    " ].

Definition error_payload (description : string) : response :=
  JsonPayload (JObj [("error", JStr description)]).

(** Lines 71-72. *)
Definition figma_url (cfg : env) : string :=
  ("https://api.figma.com/v1/files/" ++ text_of (FILE_KEY cfg))%string.

Definition figma_headers (cfg : env) : list (string * string) :=
  [("X-Figma-Token", text_of (FIGMA_TOKEN cfg))].

(** The handler returns its response together with the log of the
    outbound calls it made. *)
Definition analyze_figma (cfg : env) : list call * response :=
  if unset (FIGMA_TOKEN cfg) || unset (FILE_KEY cfg)
     || unset (GEMINI_API_KEY cfg)
  then ([], error_payload "Missing env vars")
  else
    let url := figma_url cfg in
    let headers := figma_headers cfg in
    let log := [FigmaGet url headers] in
    match requests_get url headers with
    | NoResponse => (log, Unhandled RequestFailed)
    | Responded status_code body =>
        if negb (Z.eqb status_code 200)
        then (log, error_payload "failed to fetch figma")
        else
          match body with
          | None => (log, Unhandled InvalidBody)
          | Some figma_json =>
              match Extractor.extract_figma_summary figma_json with
              | Raise e => (log, Unhandled (SummaryFailed e))
              | Ok figma_summary =>
                  let model := "models/gemini-2.0-flash-exp" in
                  let prompt := prompt_of figma_summary in
                  let log := log ++ [GeminiGenerate model prompt] in
                  match collect "" (generate_content model prompt) with
                  | inr message =>
                      (log,
                       error_payload ("Gemini API error: " ++ message)%string)
                  | inl analysis_text =>
                      (log,
                       Document (Report.build_pdf analysis_text)
                         "application/pdf"
                         [("Content-Disposition",
                           "attachment; filename=figma_analysis.pdf")])
                  end
              end
          end
    end.

End Services.

(** Reading a log and a response. *)
Definition is_generation (c : call) : bool :=
  match c with GeminiGenerate _ _ => true | FigmaGet _ _ => false end.

Definition calls_gemini (log : list call) : bool := existsb is_generation log.

Definition is_document (r : response) : bool :=
  match r with Document _ _ _ => true | _ => false end.

End Handler.

(* ================================================================== *)
(** * Reading documents and summaries *)

Module Doc.
Import Py.

Definition is_obj (v : json) : bool :=
  match v with JObj _ => true | _ => false end.

Definition fields_of (v : json) : list (string * json) :=
  match v with JObj fields => fields | _ => [] end.

Definition items_of (v : json) : list json :=
  match v with JArr items => items | _ => [] end.

(** The value stored under [key], if [v] is a dict that has the key. *)
Definition entry (v : json) (key : string) : option json :=
  lookup key (fields_of v).

Definition missing (v : json) (key : string) : Prop :=
  is_obj v = true /\ entry v key = None.

Definition get_or (v : json) (key : string) (default : json) : json :=
  match entry v key with Some x => x | None => default end.

Definition field (v : json) (key : string) : json := get_or v key JNull.

(** The nodes one level below [v]. *)
Definition child_nodes (v : json) : list json :=
  items_of (get_or v "children" (JArr [])).

Definition document_of (data : json) : json :=
  get_or data "document" (JObj []).

(** The summary as a function of the document: the pages are the
    first-level children of the root, the frames of a page its first 20
    children, and the style lists the first 10 keys of the two mappings. *)
Definition frame_of (child : json) : json :=
  JObj [("name", field child "name"); ("type", field child "type");
        ("background", field child "backgroundColor")].

Definition page_of (page : json) : json :=
  JObj [("name", field page "name"); ("type", field page "type");
        ("frames", JArr (map frame_of (firstn 20 (child_nodes page))))].

Definition key_names (v : json) : list json :=
  firstn 10 (map (fun kv => JStr (fst kv)) (fields_of v)).

Definition summary_of (data : json) : json :=
  JObj [("name", get_or data "name" (JStr "Unknown"));
        ("version", get_or data "version" (JStr "Unknown"));
        ("pages", JArr (map page_of (child_nodes (document_of data))));
        ("styles",
         JObj [("colors", JArr (key_names (field data "styles")));
               ("text_styles",
                JArr (key_names (field data "componentSets")))])].

(** Documents of the shape the data model describes: a dict whose
    ["document"], when present, is a dict node; the ["children"] of a node,
    when present, a list of dict nodes, for the two levels the extractor
    visits; ["styles"] and ["componentSets"], when present, dicts. *)
Definition optional (ok : json -> bool) (v : json) (key : string) : bool :=
  match entry v key with Some x => ok x | None => true end.

Definition list_of (ok : json -> bool) (v : json) : bool :=
  match v with JArr items => forallb ok items | _ => false end.

Definition node (children_ok : json -> bool) (v : json) : bool :=
  is_obj v && optional (list_of children_ok) v "children".

Definition design_document (data : json) : bool :=
  is_obj data
  && optional (node (node is_obj)) data "document"
  && optional is_obj data "styles"
  && optional is_obj data "componentSets".

(** Removing from a document everything that lies below its second-level
    children, and from those everything but the three fields of a frame. *)
Definition on_field (key : string) (g : json -> json) (v : json) : json :=
  match v with
  | JObj fields =>
      JObj (map (fun kv => if String.eqb (fst kv) key
                           then (fst kv, g (snd kv)) else kv) fields)
  | _ => v
  end.

Definition on_items (g : json -> json) (v : json) : json :=
  match v with
  | JArr items => JArr (map g items)
  | _ => v
  end.

Definition frame_key (key : string) : bool :=
  String.eqb key "name" || String.eqb key "type"
  || String.eqb key "backgroundColor".

Definition prune_frame (child : json) : json :=
  match child with
  | JObj fields => JObj (filter (fun kv => frame_key (fst kv)) fields)
  | _ => child
  end.

Definition prune_page : json -> json :=
  on_field "children" (on_items prune_frame).

Definition prune : json -> json :=
  on_field "document" (on_field "children" (on_items prune_page)).

(** The entries of a summary. *)
Definition summary_pages (summary : json) : list json :=
  items_of (field summary "pages").

Definition page_frames (page_entry : json) : list json :=
  items_of (field page_entry "frames").

Definition summary_colors (summary : json) : list json :=
  items_of (field (field summary "styles") "colors").

Definition summary_text_styles (summary : json) : list json :=
  items_of (field (field summary "styles") "text_styles").

(** An entry built from a node that lacks a field carries a null there. *)
Definition frame_defaults (child frame_entry : json) : Prop :=
  (missing child "name" -> entry frame_entry "name" = Some JNull)
  /\ (missing child "type" -> entry frame_entry "type" = Some JNull)
  /\ (missing child "backgroundColor" ->
      entry frame_entry "background" = Some JNull).

Definition page_defaults (page page_entry : json) : Prop :=
  (missing page "name" -> entry page_entry "name" = Some JNull)
  /\ (missing page "type" -> entry page_entry "type" = Some JNull)
  /\ Forall2 frame_defaults (firstn 20 (child_nodes page))
       (page_frames page_entry).

(** The shape and the size limits of a summary. *)
Definition bounded_page (page_entry : json) : Prop :=
  exists name type frames,
    page_entry = JObj [("name", name); ("type", type); ("frames", JArr frames)]
    /\ (List.length frames <= 20)%nat.

Definition bounded_summary (summary : json) : Prop :=
  exists name version pages colors text_styles,
    summary = JObj [("name", name); ("version", version);
                    ("pages", JArr pages);
                    ("styles", JObj [("colors", JArr colors);
                                     ("text_styles", JArr text_styles)])]
    /\ Forall bounded_page pages
    /\ (List.length colors <= 10)%nat
    /\ (List.length text_styles <= 10)%nat.

End Doc.

(* ================================================================== *)
(** * Reading report pages *)

Module Layout.
Import Report.

(** A row is a string with its vertical offset; the body of a page is a run
    of rows drawn at x = 40. *)
Definition row : Type := (Z * string)%type.

Definition draw (r : row) : op := DrawString 40 (fst r) (snd r).

Definition body_placement (r : row) : placement :=
  Placement "Helvetica" 10 40 (fst r) (snd r).

Definition title_placement : placement :=
  Placement "Helvetica-Bold" 16 40 800 title.

(** The first page opens with the title, the others with the body font. *)
Definition first_page (rows : list row) : page :=
  SetFont "Helvetica-Bold" 16 :: DrawString 40 800 title
    :: SetFont "Helvetica" 10 :: map draw rows.

Definition later_page (rows : list row) : page :=
  SetFont "Helvetica" 10 :: map draw rows.

(** Offsets that start at [y] and go down 15 at a time. *)
Fixpoint steps_down (y : Z) (ys : list Z) : Prop :=
  match ys with
  | [] => True
  | y' :: rest => y' = y /\ steps_down (y - 15) rest
  end.

Definition starts_at (y : Z) (rows : list row) : Prop :=
  rows <> [] /\ steps_down y (map fst rows).

Definition offsets (p : page) : list Z := map p_y (analysis_lines p).

Definition ends_with (s suffix : string) : Prop :=
  exists head, s = (head ++ suffix)%string.

End Layout.

(* ================================================================== *)
(** * Sample inputs *)

Module Samples.
Import Py.

Definition frame (n : string) : json :=
  JObj [("name", JStr n); ("type", JStr "FRAME");
        ("children", JArr [JObj [("name", JStr "deep")]])].

Definition small_file : json :=
  JObj [("name", JStr "App");
        ("document",
         JObj [("children",
                JArr [JObj [("name", JStr "Page 1"); ("type", JStr "CANVAS");
                            ("children",
                             JArr [frame "Home"; frame "Login"])];
                      JObj [("type", JStr "CANVAS")]])]);
        ("styles", JObj [("1:2", JObj [])])].

(** [small_file] with nothing below its frames. *)
Definition shallow_file : json :=
  JObj [("name", JStr "App");
        ("document",
         JObj [("children",
                JArr [JObj [("name", JStr "Page 1"); ("type", JStr "CANVAS");
                            ("children",
                             JArr [JObj [("name", JStr "Home");
                                         ("type", JStr "FRAME")];
                                   JObj [("name", JStr "Login");
                                         ("type", JStr "FRAME")]])];
                      JObj [("type", JStr "CANVAS")]])]);
        ("styles", JObj [("1:2", JObj [])])].

(** Two pages of 25 frames each, 12 styles and 11 component sets. *)
Definition crowded_page (n : string) : json :=
  JObj [("name", JStr n); ("type", JStr "CANVAS");
        ("children", JArr (repeat (frame "Screen") 25))].

Definition ids : list string :=
  ["1:1"; "1:2"; "1:3"; "1:4"; "1:5"; "1:6"; "1:7"; "1:8"; "1:9"; "1:10";
   "1:11"; "1:12"].

Definition big_file : json :=
  JObj [("name", JStr "Big"); ("version", JStr "7");
        ("document",
         JObj [("children", JArr [crowded_page "A"; crowded_page "B"])]);
        ("styles", JObj (map (fun k => (k, JObj [])) ids));
        ("componentSets", JObj (map (fun k => (k, JNull)) (tl ids)))].


(** A page and a frame that carry no field at all. *)
Definition bare_file : json :=
  JObj [("document",
         JObj [("children", JArr [JObj [("children", JArr [JObj []])]])])].

(** A line of 91 characters, and a text of 50 short lines. *)
Definition long_line : string := string_of_list_ascii (repeat "a"%char 91).

Definition fifty_lines : string := String.concat Handler.nl (repeat "x" 50).

(** A configured server whose design-file request is answered 404. *)
Definition configured : Handler.env :=
  Handler.Env (Some "key") (Some "token") (Some "file").

Definition not_found (url : string) (headers : list (string * string))
  : Handler.fetched :=
  Handler.Responded 404 None.

Definition silent (model prompt : string) : Handler.stream :=
  Handler.StreamEnd.

Definition no_dumps (v : Py.json) : string := "{}".

(** A request answered with [small_file], and a generation in three
    chunks. *)
Definition found (url : string) (headers : list (string * string))
  : Handler.fetched :=
  Handler.Responded 200 (Some small_file).

Definition hello (model prompt : string) : Handler.stream :=
  Handler.Chunk "Hello "
    (Handler.Chunk "World" (Handler.Chunk "!" Handler.StreamEnd)).

Definition refusing (model prompt : string) : Handler.stream :=
  Handler.Chunk "Hel" (Handler.StreamError "quota exceeded").

(** A token set to the empty string, and a 200 response carrying a list. *)
Definition blank_token : Handler.env :=
  Handler.Env (Some "key") (Some "") (Some "file").

Definition found_list (url : string) (headers : list (string * string))
  : Handler.fetched :=
  Handler.Responded 200 (Some (JArr [])).

(** A page whose 21st child is not a node. *)
Definition overfull_file : json :=
  JObj [("document",
         JObj [("children",
                JArr [JObj [("children",
                             JArr (repeat (frame "Screen") 20
                                   ++ [JNull]))]])])].

Definition two_lines : string := String.concat Handler.nl ["Summary"; "ok"].

End Samples.
(* ================================================================== *)
(** * The other routes (lines 19-62) *)

Module Routes.
Import Py Handler.

(** Line 21. *)
Definition root : json :=
  JObj [("message", JStr "Tessa FastAPI Server is Running")].

(** [str(n)] for an [int]. *)
Definition str_int (n : Z) : string := NilZero.string_of_int (Z.to_int n).

(** What iterating [genai.list_models()] delivers: models, then the end of
    the listing or an exception with its message. *)
Inductive listing : Type :=
| ListEnd
| ListModel (name display_name : string)
    (supported_generation_methods : list string) (rest : listing)
| ListError (message : string).

(** Lines 33-37. *)
Definition model_entry (name display_name : string)
           (supported_generation_methods : list string) : json :=
  JObj [("name", JStr name); ("display_name", JStr display_name);
        ("supported_methods", JArr (map JStr supported_generation_methods))].

(** Lines 31-37: an exception discards the entries gathered so far. *)
Fixpoint gather (model_list : list json) (models : listing)
  : list json + string :=
  match models with
  | ListEnd => inl model_list
  | ListModel n d ms rest => gather (model_list ++ [model_entry n d ms]) rest
  | ListError message => inr message
  end.

(** [list_gemini_models]: the payload, and whether the listing was asked
    for. *)
Definition list_gemini_models (key : option string) (list_models : listing)
  : bool * json :=
  if unset key then (false, JObj [("error", JStr "Missing GEMINI_API_KEY")])
  else
    match gather [] list_models with
    | inl model_list => (true, JObj [("models", JArr model_list)])
    | inr message => (true, JObj [("error", JStr message)])
    end.

(** A response of the design-file service as [/fetch] reads it: status,
    [res.text] and, when the body parses, [res.json()]. *)
Inductive reply : Type :=
| Reply (status_code : Z) (text : string) (body : option json)
| NoReply.

(** The same response as [/analysis] reads it. *)
Definition fetched_of (r : reply) : fetched :=
  match r with
  | Reply status_code _ body => Responded status_code body
  | NoReply => NoResponse
  end.

Inductive outcome : Type :=
| Returned (payload : json)
| Raised (f : failure).

(** What a run of [get_figma_json] leaves: the outbound calls, the lines
    printed to the console, and the payload or the exception. *)
Record run : Type :=
  Run { calls : list call; printed : list string; result : outcome }.

Section Services.

Variable requests_get : string -> list (string * string) -> reply.
Variable json_dumps : json -> string.

(** Lines 44-62. *)
Definition get_figma_json (cfg : env) : run :=
  if unset (FIGMA_TOKEN cfg) || unset (FILE_KEY cfg)
  then Run [] []
         (Returned
            (JObj [("error", JStr "Missing FIGMA_TOKEN or FILE_KEY in .env")]))
  else
    let url :=
      ("https://api.figma.com/v1/files/" ++ text_of (FILE_KEY cfg))%string in
    let headers := [("X-Figma-Token", text_of (FIGMA_TOKEN cfg))] in
    let out := ["Fetching Figma MCP JSON..."] in
    let log := [FigmaGet url headers] in
    match requests_get url headers with
    | NoReply => Run log out (Raised RequestFailed)
    | Reply status_code text body =>
        if Z.eqb status_code 200
        then
          match body with
          | None => Run log out (Raised InvalidBody)
          | Some data =>
              Run log (out ++ ["MCP JSON Output:"; json_dumps data])
                (Returned
                   (JObj [("status", JStr "ok");
                          ("message", JStr "MCP JSON printed to console")]))
          end
        else
          Run log
            (out ++ [("Error " ++ str_int status_code ++ ": " ++ text)%string])
            (Returned
               (JObj [("error",
                       JStr ("Failed to fetch JSON - "
                             ++ str_int status_code)%string)]))
    end.

End Services.

End Routes.

(* ================================================================== *)
(** * Reading more of documents, streams and pages *)

Module Domain.
Import Py Doc.

(** The values a loop whose body needs dicts runs over to its end. *)
Definition loopable (ok : json -> bool) (v : json) : bool :=
  match v with
  | JArr items => forallb ok items
  | JObj fields => match fields with [] => true | _ :: _ => false end
  | JStr s => String.eqb s ""
  | _ => false
  end.

(** The same for a loop over [v[:n]]. *)
Definition sliceable (n : nat) (ok : json -> bool) (v : json) : bool :=
  match v with
  | JArr items => forallb ok (firstn n items)
  | JStr s => String.eqb (substring 0 n s) ""
  | _ => false
  end.

Definition page_accepted (page : json) : bool :=
  is_obj page && sliceable 20 is_obj (get_or page "children" (JArr [])).

Definition styles_accepted (v : json) : bool := negb (truthy v) || is_obj v.

(** The documents on which the extractor returns. *)
Definition accepted (data : json) : bool :=
  is_obj data
  && (is_obj (document_of data)
      && loopable page_accepted
           (get_or (document_of data) "children" (JArr [])))
  && styles_accepted (field data "styles")
  && styles_accepted (field data "componentSets").

(** Dropping the children of every page after the 20th. *)
Definition take_items (n : nat) (v : json) : json :=
  match v with
  | JArr items => JArr (firstn n items)
  | _ => v
  end.

Definition cap_page : json -> json := on_field "children" (take_items 20).

Definition cap : json -> json :=
  on_field "document" (on_field "children" (on_items cap_page)).

(** Replacing every value of a dict. *)
Definition with_values (g : json -> json) (v : json) : json :=
  match v with
  | JObj fields => JObj (map (fun kv => (fst kv, g (snd kv))) fields)
  | _ => v
  end.

End Domain.

Module Paging.
Import Report Layout Handler.

(** A stream that delivers [texts] and then [tail]. *)
Fixpoint chunks (texts : list string) (tail : stream) : stream :=
  match texts with
  | [] => tail
  | text :: rest => Chunk text (chunks rest tail)
  end.

Definition join (texts : list string) : string :=
  fold_right String.append "" texts.

Fixpoint count_newlines (text : string) : nat :=
  match text with
  | EmptyString => 0
  | String c rest =>
      (if Ascii.eqb c newline then 1 else 0) + count_newlines rest
  end.

Definition one_line (line : string) : Prop := count_newlines line = 0%nat.

(** The rows the loop of lines 160-171 puts on the page in progress and on
    the pages it opens, from [y_position] on. *)
Fixpoint layout (y : Z) (lines : list string) : list row * list (list row) :=
  match lines with
  | [] => ([], [])
  | line :: rest =>
      if (y <? 50)%Z
      then let (rows, more) := layout (800 - 15) rest in
           ([], ((800%Z, truncate line) :: rows) :: more)
      else let (rows, more) := layout (y - 15) rest in
           ((y, truncate line) :: rows, more)
  end.

(** A run of rows from [y] down that stays above the bottom margin, and one
    after which the next row would fall below it. *)
Definition fits (y : Z) (rows : list row) : Prop :=
  rows <> [] -> (50 <= y - 15 * (Z.of_nat (List.length rows) - 1))%Z.

Definition full (y : Z) (rows : list row) : Prop :=
  (y - 15 * Z.of_nat (List.length rows) < 50)%Z.

(** Number of analysis lines on each page of a document. *)
Definition page_sizes (doc : list page) : list nat :=
  map (fun p => List.length (analysis_lines p)) doc.

Fixpoint all_but_last {A} (P : A -> Prop) (l : list A) : Prop :=
  match l with
  | [] => True
  | x :: rest =>
      match rest with
      | [] => True
      | _ :: _ => P x /\ all_but_last P rest
      end
  end.

End Paging.

Module Pipeline.
Import Py Handler.

(** All three settings are there and not empty. *)
Definition all_set (cfg : env) : Prop :=
  unset (FIGMA_TOKEN cfg) = false /\ unset (FILE_KEY cfg) = false
  /\ unset (GEMINI_API_KEY cfg) = false.

(** The two calls the handler can make. *)
Definition request (cfg : env) : call :=
  FigmaGet (figma_url cfg) (figma_headers cfg).

Definition generation (json_dumps : json -> string) (summary : json) : call :=
  GeminiGenerate "models/gemini-2.0-flash-exp" (prompt_of json_dumps summary).

Definition report (analysis_text : string) : response :=
  Document (Report.build_pdf analysis_text) "application/pdf"
    [("Content-Disposition", "attachment; filename=figma_analysis.pdf")].

(** A listing that delivers [models] and then [tail]. *)
Fixpoint listed (models : list (string * string * list string))
         (tail : Routes.listing) : Routes.listing :=
  match models with
  | [] => tail
  | (name, display_name, methods) :: rest =>
      Routes.ListModel name display_name methods (listed rest tail)
  end.

Definition entry_of (m : string * string * list string) : json :=
  let '(name, display_name, methods) := m in
  Routes.model_entry name display_name methods.

End Pipeline.

Module Replies.
Import Py.

(** Replies of the design-file service as [/fetch] reads them. *)
Definition forbidden (url : string) (headers : list (string * string))
  : Routes.reply :=
  Routes.Reply 403 "Invalid token" None.

Definition delivered (url : string) (headers : list (string * string))
  : Routes.reply :=
  Routes.Reply 200 "{}" (Some (JObj [])).

(** Only the two design-file settings. *)
Definition no_gemini_key : Handler.env :=
  Handler.Env None (Some "token") (Some "file").

End Replies.

(* ================================================================== *)
(** * The extractor computes [summary_of] *)

Import Py Extractor Doc.

Lemma dict_get_obj (fields : list (string * json)) (key : string) (d : json) :
  dict_get (JObj fields) key d = Ok (get_or (JObj fields) key d).
Proof.
  unfold dict_get, get_or, entry; simpl.
  destruct (lookup key fields); reflexivity.
Qed.

Lemma dict_get_ok (v : json) (key : string) (d x : json) :
  dict_get v key d = Ok x -> is_obj v = true /\ x = get_or v key d.
Proof.
  destruct v; try (simpl; discriminate).
  rewrite dict_get_obj. intros H; inversion H; auto.
Qed.

Lemma bind_ok {A B} (m : result A) (k : A -> result B) (b : B) :
  bind m k = Ok b -> exists a, m = Ok a /\ k a = Ok b.
Proof.
  destruct m as [a|e]; simpl; [eauto | discriminate].
Qed.

(** Peel the successful binds of a hypothesis, one at a time. *)
Ltac peel H :=
  repeat match type of H with
  | bind _ _ = Ok _ =>
      let a := fresh "a" in
      let Ha := fresh "Ha" in
      apply bind_ok in H; destruct H as (a & Ha & H)
  end.

Lemma frame_info_ok (child f : json) :
  frame_info child = Ok f -> is_obj child = true /\ f = frame_of child.
Proof.
  unfold frame_info; intros H; peel H.
  apply dict_get_ok in Ha, Ha0, Ha1.
  destruct Ha as [Ho ->], Ha0 as [_ ->], Ha1 as [_ ->].
  inversion H; auto.
Qed.

Lemma frame_info_obj (fields : list (string * json)) :
  frame_info (JObj fields) = Ok (frame_of (JObj fields)).
Proof.
  unfold frame_info. rewrite !dict_get_obj. reflexivity.
Qed.

Lemma mapM_ok {A B} (f : A -> result B) (g : A -> B) (P : A -> Prop) :
  (forall x y, f x = Ok y -> P x /\ y = g x) ->
  forall l out, mapM f l = Ok out -> Forall P l /\ out = map g l.
Proof.
  intros Hf; induction l as [|x l IH]; simpl; intros out H.
  - inversion H; auto.
  - peel H. inversion H; subst.
    destruct (Hf _ _ Ha) as [Hp ->], (IH _ Ha0) as [Hl ->]; auto.
Qed.

Lemma mapM_total {A B} (f : A -> result B) (g : A -> B) (ok : A -> bool) :
  (forall x, ok x = true -> f x = Ok (g x)) ->
  forall l, forallb ok l = true -> mapM f l = Ok (map g l).
Proof.
  intros Hf; induction l as [|x l IH]; simpl; intros H; [reflexivity|].
  apply andb_true_iff in H as [Hx Hl].
  rewrite (Hf _ Hx), (IH Hl); reflexivity.
Qed.

(** A loop whose body needs dicts runs to its end over a list only: over
    the keys of a dict or the characters of a str it stops at the first
    one. *)
Lemma iterate_ok {B} (f : json -> result B) (v : json) (nodes : list json)
      (out : list B) :
  (forall s, f (JStr s) = Raise AttributeError) ->
  iterate v = Ok nodes -> mapM f nodes = Ok out -> nodes = items_of v.
Proof.
  intros Hf Hi Hm; destruct v; simpl in *; try discriminate;
    inversion Hi; subst; auto.
  - unfold chars in *.
    destruct (list_ascii_of_string s); [reflexivity|].
    simpl in Hm; rewrite Hf in Hm; discriminate.
  - destruct fields; [reflexivity|].
    simpl in Hm; rewrite Hf in Hm; discriminate.
Qed.

Lemma slice_iterate_ok {B} (f : json -> result B) (n : nat) (v s : json)
      (nodes : list json) (out : list B) :
  (forall s, f (JStr s) = Raise AttributeError) ->
  slice_to n v = Ok s -> iterate s = Ok nodes -> mapM f nodes = Ok out ->
  nodes = firstn n (items_of v).
Proof.
  intros Hf Hs Hi Hm.
  rewrite (iterate_ok f s nodes out Hf Hi Hm).
  destruct v; simpl in *; try discriminate; inversion Hs; subst; simpl.
  - rewrite (iterate_ok f _ nodes out Hf Hi Hm) in Hm.
    now rewrite firstn_nil.
  - reflexivity.
Qed.

Lemma page_info_ok (page e : json) :
  page_info page = Ok e -> is_obj page = true /\ e = page_of page.
Proof.
  unfold page_info; intros H; peel H.
  apply dict_get_ok in Ha, Ha0, Ha1.
  destruct Ha as [Ho ->], Ha0 as [_ ->], Ha1 as [_ ->].
  pose proof (slice_iterate_ok frame_info 20 _ _ _ _ (fun _ => eq_refl)
                Ha2 Ha3 Ha4) as ->.
  apply (mapM_ok frame_info frame_of _ frame_info_ok) in Ha4 as [_ ->].
  inversion H; auto.
Qed.

Lemma style_keys_ok (data : json) (key : string) (ks : list json) :
  style_keys data key = Ok ks -> ks = key_names (field data key).
Proof.
  unfold style_keys; intros H; peel H.
  apply dict_get_ok in Ha as [Ho ->]. fold (field data key) in H.
  destruct (truthy (field data key)) eqn:T.
  - peel H. apply dict_get_ok in Ha as [_ ->].
    assert (E : get_or data key (JObj []) = field data key).
    { unfold field, get_or in *. destruct (entry data key); [reflexivity|].
      discriminate. }
    rewrite E in Ha0.
    destruct (field data key); simpl in Ha0; try discriminate.
    inversion Ha0; subst. inversion H; reflexivity.
  - inversion H; subst.
    destruct (field data key); try reflexivity; simpl in T.
    + destruct fields; [reflexivity | discriminate].
Qed.

(** On every input on which it returns, the extractor returns
    [summary_of]. *)
Lemma extract_ok (data s : json) :
  extract_figma_summary data = Ok s ->
  is_obj data = true /\ s = summary_of data.
Proof.
  unfold extract_figma_summary; intros H; peel H.
  apply dict_get_ok in Ha, Ha0, Ha1, Ha2.
  destruct Ha as [Ho ->], Ha0 as [_ ->], Ha1 as [_ ->], Ha2 as [_ ->].
  pose proof (iterate_ok page_info _ _ _ (fun _ => eq_refl) Ha3 Ha4) as ->.
  apply (mapM_ok page_info page_of _ page_info_ok) in Ha4 as [_ ->].
  apply style_keys_ok in Ha5, Ha6; subst.
  inversion H; auto.
Qed.


(** ** The extractor returns on documents of the expected shape *)

Lemma is_obj_true (v : json) :
  is_obj v = true -> exists fields, v = JObj fields.
Proof. destruct v; simpl; try discriminate; eauto. Qed.

Lemma optional_get_or (ok : json -> bool) (v : json) (key : string) (d : json) :
  optional ok v key = true -> ok d = true -> ok (get_or v key d) = true.
Proof.
  unfold optional, get_or; destruct (entry v key); auto.
Qed.

Lemma node_children (ok : json -> bool) (v : json) :
  node ok v = true ->
  exists fields items,
    v = JObj fields /\ get_or v "children" (JArr []) = JArr items
    /\ forallb ok items = true.
Proof.
  unfold node; intros H; apply andb_true_iff in H as [Ho Hc].
  apply is_obj_true in Ho as [fields ->].
  apply (optional_get_or _ _ _ (JArr [])) in Hc; [|reflexivity].
  destruct (get_or (JObj fields) "children" (JArr [])) eqn:E;
    simpl in Hc; try discriminate.
  eauto.
Qed.

Lemma forallb_firstn {A} (ok : A -> bool) (n : nat) (l : list A) :
  forallb ok l = true -> forallb ok (firstn n l) = true.
Proof.
  revert l; induction n as [|n IH]; intros [|x l]; simpl; auto.
  intros H; apply andb_true_iff in H as [-> Hl]; simpl; auto.
Qed.

Lemma frame_info_total (child : json) :
  is_obj child = true -> frame_info child = Ok (frame_of child).
Proof.
  intros H; apply is_obj_true in H as [fields ->]; apply frame_info_obj.
Qed.

Lemma page_info_total (page : json) :
  node is_obj page = true -> page_info page = Ok (page_of page).
Proof.
  intros H; apply node_children in H as (fields & items & -> & Hc & Hi).
  unfold page_info, page_of, child_nodes.
  rewrite !dict_get_obj, Hc; cbn [bind slice_to iterate items_of].
  rewrite (mapM_total frame_info frame_of is_obj frame_info_total);
    [reflexivity | now apply forallb_firstn].
Qed.

Lemma style_keys_total (data : json) (key : string) :
  is_obj data = true -> optional is_obj data key = true ->
  style_keys data key = Ok (key_names (field data key)).
Proof.
  intros Ho H; apply is_obj_true in Ho as [fields ->].
  unfold style_keys, field, optional in *.
  rewrite !dict_get_obj; unfold get_or.
  destruct (entry (JObj fields) key) as [x|]; [|reflexivity].
  destruct x; simpl in H; try discriminate.
  destruct fields0; reflexivity.
Qed.

Lemma extract_total (data : json) :
  design_document data = true ->
  extract_figma_summary data = Ok (summary_of data).
Proof.
  unfold design_document; intros H.
  apply andb_true_iff in H as [H Hc]; apply andb_true_iff in H as [H Hs].
  apply andb_true_iff in H as [Ho Hd].
  apply (optional_get_or _ _ _ (JObj [])) in Hd; [|reflexivity].
  fold (document_of data) in Hd.
  apply node_children in Hd as (dfields & items & Ed & Hch & Hi).
  unfold extract_figma_summary.
  rewrite (style_keys_total _ _ Ho Hs), (style_keys_total _ _ Ho Hc).
  destruct (is_obj_true _ Ho) as [fields ->].
  rewrite !dict_get_obj; simpl.
  fold (document_of (JObj fields)); rewrite Ed, dict_get_obj.
  unfold summary_of, child_nodes; rewrite Ed in Hch |- *; rewrite Hch; simpl.
  rewrite (mapM_total page_info page_of _ page_info_total _ Hi).
  reflexivity.
Qed.

(** ** What is read of a pruned document *)

Lemma lookup_on_field (key k : string) (g : json -> json)
      (fields : list (string * json)) :
  lookup k (map (fun kv => if String.eqb (fst kv) key
                           then (fst kv, g (snd kv)) else kv) fields)
  = if String.eqb k key then option_map g (lookup k fields)
    else lookup k fields.
Proof.
  induction fields as [|[k0 v0] fields IH]; simpl.
  - destruct (String.eqb k key); reflexivity.
  - destruct (String.eqb_spec k0 key) as [->|Hk0]; simpl.
    + destruct (String.eqb_spec key k) as [->|Hk].
      * now rewrite String.eqb_refl.
      * rewrite IH. reflexivity.
    + destruct (String.eqb_spec k0 k) as [->|Hk].
      * apply String.eqb_neq in Hk0; rewrite Hk0; reflexivity.
      * exact IH.
Qed.

Lemma lookup_filter (keep : string -> bool) (k : string)
      (fields : list (string * json)) :
  keep k = true ->
  lookup k (filter (fun kv => keep (fst kv)) fields) = lookup k fields.
Proof.
  intros Hk; induction fields as [|[k0 v0] fields IH]; simpl; [reflexivity|].
  destruct (String.eqb_spec k0 k) as [->|Hne].
  - rewrite Hk; simpl. now rewrite String.eqb_refl.
  - destruct (keep k0); simpl; [|exact IH].
    apply String.eqb_neq in Hne; now rewrite Hne.
Qed.

Lemma dict_get_on_field_other (key k : string) (g : json -> json)
      (v d : json) :
  String.eqb k key = false ->
  dict_get (on_field key g v) k d = dict_get v k d.
Proof.
  intros Hk; destruct v; try reflexivity.
  unfold on_field, dict_get; rewrite lookup_on_field, Hk; reflexivity.
Qed.

Lemma dict_get_on_field (key : string) (g : json -> json) (v d : json) :
  g d = d ->
  dict_get (on_field key g v) key d = (x <- dict_get v key d ;; Ok (g x)).
Proof.
  intros Hd; destruct v; try reflexivity.
  unfold on_field, dict_get; rewrite lookup_on_field, String.eqb_refl.
  destruct (lookup key fields); simpl; congruence.
Qed.

Lemma mapM_map {A B C} (f : B -> result C) (g : A -> B) (l : list A) :
  mapM f (map g l) = mapM (fun x => f (g x)) l.
Proof.
  induction l as [|x l IH]; simpl; [reflexivity | now rewrite IH].
Qed.

Lemma mapM_ext {A B} (f f' : A -> result B) (l : list A) :
  (forall x, f x = f' x) -> mapM f l = mapM f' l.
Proof.
  intros E; induction l as [|x l IH]; simpl; [reflexivity|].
  now rewrite E, IH.
Qed.

Lemma frame_info_prune (child : json) :
  frame_info (prune_frame child) = frame_info child.
Proof.
  destruct child; try reflexivity.
  unfold prune_frame, frame_info, dict_get.
  rewrite !lookup_filter by reflexivity. reflexivity.
Qed.

Lemma loop_on_items {B C} (f : json -> result B) (g : json -> json)
      (k : list B -> result C) (n : nat) (v : json) :
  (forall x, f (g x) = f x) ->
  (s <- slice_to n (on_items g v) ;; nodes <- iterate s ;;
   out <- mapM f nodes ;; k out)
  = (s <- slice_to n v ;; nodes <- iterate s ;; out <- mapM f nodes ;; k out).
Proof.
  intros E; destruct v; try reflexivity; simpl.
  rewrite firstn_map, mapM_map, (mapM_ext _ f); auto.
Qed.

Lemma page_info_prune (page : json) :
  page_info (prune_page page) = page_info page.
Proof.
  unfold page_info, prune_page.
  rewrite !dict_get_on_field_other by reflexivity.
  destruct (dict_get page "name" JNull); [simpl | reflexivity].
  destruct (dict_get page "type" JNull); [simpl | reflexivity].
  rewrite dict_get_on_field by reflexivity.
  destruct (dict_get page "children" (JArr [])) as [ch|]; [simpl | reflexivity].
  apply loop_on_items, frame_info_prune.
Qed.

Lemma style_keys_prune (data : json) (key : string) :
  String.eqb key "document" = false ->
  style_keys (prune data) key = style_keys data key.
Proof.
  intros Hk; unfold style_keys, prune.
  rewrite !dict_get_on_field_other by assumption. reflexivity.
Qed.

Lemma extract_prune (data : json) :
  extract_figma_summary (prune data) = extract_figma_summary data.
Proof.
  unfold extract_figma_summary.
  rewrite !style_keys_prune by reflexivity. unfold prune.
  rewrite !dict_get_on_field_other by reflexivity.
  destruct (dict_get data "name" _); [simpl | reflexivity].
  destruct (dict_get data "version" _); [simpl | reflexivity].
  rewrite dict_get_on_field by reflexivity.
  destruct (dict_get data "document" _) as [doc|]; [simpl | reflexivity].
  rewrite dict_get_on_field by reflexivity.
  destruct (dict_get doc "children" _) as [ch|]; [simpl | reflexivity].
  destruct ch; try reflexivity; simpl.
  rewrite mapM_map, (mapM_ext _ page_info); auto using page_info_prune.
Qed.

(** A dict that has none of the three keys is of the expected shape,
    whatever else it holds. *)
Lemma bare_dict_is_design_document (data : json) :
  missing data "document" -> missing data "styles" ->
  missing data "componentSets" -> design_document data = true.
Proof.
  intros [Ho Hd] [_ Hs] [_ Hc]; unfold design_document, optional.
  now rewrite Ho, Hd, Hs, Hc.
Qed.

(** ** The extractor on sample documents *)

Example extract_empty_dict :
  extract_figma_summary (JObj [])
  = Ok (JObj [("name", JStr "Unknown"); ("version", JStr "Unknown");
              ("pages", JArr []);
              ("styles", JObj [("colors", JArr []);
                               ("text_styles", JArr [])])]).
Proof. reflexivity. Qed.

Example extract_small_file :
  extract_figma_summary Samples.small_file
  = Ok (JObj [("name", JStr "App"); ("version", JStr "Unknown");
              ("pages",
               JArr [JObj [("name", JStr "Page 1"); ("type", JStr "CANVAS");
                           ("frames",
                            JArr [JObj [("name", JStr "Home");
                                        ("type", JStr "FRAME");
                                        ("background", JNull)];
                                  JObj [("name", JStr "Login");
                                        ("type", JStr "FRAME");
                                        ("background", JNull)]])];
                     JObj [("name", JNull); ("type", JStr "CANVAS");
                           ("frames", JArr [])]]);
              ("styles", JObj [("colors", JArr [JStr "1:2"]);
                               ("text_styles", JArr [])])]).
Proof. reflexivity. Qed.

Example extract_big_file_sizes :
  option_map (fun s => (map (fun p => List.length (page_frames p))
                          (summary_pages s),
                        List.length (summary_colors s),
                        List.length (summary_text_styles s)))
    (match extract_figma_summary Samples.big_file with
     | Ok s => Some s
     | Raise _ => None
     end)
  = Some ([20; 20], 10, 10)%nat.
Proof. reflexivity. Qed.

(** Values of another type than the code expects make it raise. *)
Example extract_list : extract_figma_summary (JArr []) = Raise AttributeError.
Proof. reflexivity. Qed.

Example extract_null_document :
  extract_figma_summary (JObj [("document", JNull)]) = Raise AttributeError.
Proof. reflexivity. Qed.

Example extract_children_number :
  extract_figma_summary
    (JObj [("document", JObj [("children", JInt 3)])]) = Raise TypeError.
Proof. reflexivity. Qed.

Example extract_styles_list :
  extract_figma_summary (JObj [("styles", JArr [JNull])])
  = Raise AttributeError.
Proof. reflexivity. Qed.

(* ================================================================== *)
(** * Properties of the summary *)

Lemma Forall_map_intro {A B} (P : B -> Prop) (f : A -> B) (l : list A) :
  (forall x, P (f x)) -> Forall P (map f l).
Proof. intros H; induction l; simpl; auto. Qed.

Lemma Forall2_map_intro {A B} (R : A -> B -> Prop) (f : A -> B) (l : list A) :
  (forall x, R x (f x)) -> Forall2 R l (map f l).
Proof. intros H; induction l; simpl; auto. Qed.

Lemma Forall_map_intro_in {A B} (P : B -> Prop) (f : A -> B) (l : list A) :
  (forall x, In x l -> P (f x)) -> Forall P (map f l).
Proof.
  intros H; induction l; simpl; constructor; [|apply IHl]; intros;
    apply H; simpl; auto.
Qed.

Lemma length_key_names (v : json) : (List.length (key_names v) <= 10)%nat.
Proof. unfold key_names. apply firstn_le_length. Qed.

Lemma bounded_page_of (page : json) : bounded_page (page_of page).
Proof.
  unfold bounded_page, page_of. do 3 eexists; split; [reflexivity|].
  rewrite length_map. apply firstn_le_length.
Qed.

Lemma missing_field (v : json) (key : string) :
  missing v key -> field v key = JNull.
Proof. intros [_ H]; unfold field, get_or; now rewrite H. Qed.

Lemma missing_get_or (v : json) (key : string) (d : json) :
  missing v key -> get_or v key d = d.
Proof. intros [_ H]; unfold get_or; now rewrite H. Qed.

Ltac read_entry :=
  unfold entry; cbn [fields_of lookup String.eqb Ascii.eqb Bool.eqb].

Lemma frame_defaults_of (child : json) : frame_defaults child (frame_of child).
Proof.
  unfold frame_defaults, frame_of.
  split; [|split]; intros H; read_entry; now rewrite (missing_field _ _ H).
Qed.

Lemma page_defaults_of (page : json) : page_defaults page (page_of page).
Proof.
  unfold page_defaults, page_of.
  split; [|split].
  - intros H; read_entry; now rewrite (missing_field _ _ H).
  - intros H; read_entry; now rewrite (missing_field _ _ H).
  - unfold page_frames, field, get_or; read_entry; cbn [items_of].
    apply Forall2_map_intro, frame_defaults_of.
Qed.

(** C1: whatever the document holds, a summary the extractor returns has at
    most 20 frame entries in each page's frame list, at most 10 keys under
    ["colors"] and at most 10 under ["text_styles"]. *)
Theorem summary_bounded (data summary : json) :
  extract_figma_summary data = Ok summary -> bounded_summary summary.
Proof.
  intros H; apply extract_ok in H as [_ ->].
  unfold bounded_summary, summary_of.
  do 5 eexists; split; [reflexivity|].
  split; [|split]; try apply length_key_names.
  apply Forall_map_intro, bounded_page_of.
Qed.

Lemma summary_bounded_witness :
  exists summary,
    extract_figma_summary Samples.big_file = Ok summary
    /\ bounded_summary summary.
Proof.
  eexists; split; [reflexivity|].
  apply (summary_bounded Samples.big_file); reflexivity.
Defined.

(** C10: in a summary the extractor returns, "Unknown" stands for an absent
    top-level ["name"] or ["version"] only: the entry of a page that lacks
    ["name"] or ["type"], and the entry of a frame that lacks ["name"],
    ["type"] or ["backgroundColor"], has the field and a null under it. *)
Theorem entries_default_to_null (data summary : json) :
  extract_figma_summary data = Ok summary ->
  (missing data "name" -> entry summary "name" = Some (JStr "Unknown"))
  /\ (missing data "version" ->
      entry summary "version" = Some (JStr "Unknown"))
  /\ Forall2 page_defaults (child_nodes (document_of data))
       (summary_pages summary).
Proof.
  intros H; apply extract_ok in H as [_ ->].
  unfold summary_of. split; [|split].
  - intros M; read_entry; now rewrite (missing_get_or _ _ _ M).
  - intros M; read_entry; now rewrite (missing_get_or _ _ _ M).
  - unfold summary_pages, field, get_or; read_entry; cbn [items_of].
    apply Forall2_map_intro, page_defaults_of.
Qed.

Lemma entries_default_to_null_witness :
  exists summary,
    extract_figma_summary Samples.bare_file = Ok summary
    /\ entry summary "name" = Some (JStr "Unknown")
    /\ Forall2 page_defaults
         (child_nodes (document_of Samples.bare_file))
         (summary_pages summary)
    /\ summary_pages summary
       = [JObj [("name", JNull); ("type", JNull);
                ("frames",
                 JArr [JObj [("name", JNull); ("type", JNull);
                             ("background", JNull)]])]].
Proof.
  eexists; split; [reflexivity|].
  destruct (entries_default_to_null Samples.bare_file _ eq_refl)
    as (Hn & _ & Hp).
  split; [apply Hn; split; reflexivity|].
  split; [exact Hp | reflexivity].
Defined.

(* ================================================================== *)
(** * Properties of the report *)

Import Report Layout.

(** ** The paginator on sample texts *)

Example split_trailing_newline :
  split (String.concat Handler.nl ["ab"; "cd"; ""]) = ["ab"; "cd"; ""].
Proof. reflexivity. Qed.

Example split_empty : split "" = [""].
Proof. reflexivity. Qed.

Example build_pdf_two_lines :
  build_pdf Samples.two_lines
  = [[SetFont "Helvetica-Bold" 16;
      DrawString 40 800 "Figma Design Analysis Report";
      SetFont "Helvetica" 10;
      DrawString 40 770 "Summary"; DrawString 40 755 "ok"]].
Proof. reflexivity. Qed.

(** 49 lines fit under the title, the 50th opens the second page. *)
Example build_pdf_fifty_lines :
  map (fun p => List.length (analysis_lines p))
    (build_pdf Samples.fifty_lines) = [49; 1]%nat.
Proof. vm_compute. reflexivity. Qed.

Example truncate_91 :
  truncate Samples.long_line
  = (string_of_list_ascii (repeat "a"%char 87) ++ "...")%string.
Proof. vm_compute. reflexivity. Qed.

(** ** Strings *)

Lemma length_append (s1 s2 : string) :
  String.length (s1 ++ s2) = (String.length s1 + String.length s2)%nat.
Proof. induction s1; simpl; auto. Qed.

Lemma length_prefix (n : nat) (s : string) :
  String.length (substring 0 n s) = Nat.min n (String.length s).
Proof.
  revert s; induction n as [|n IH]; intros [|c s]; simpl; auto.
Qed.

Lemma truncate_short (line : string) :
  (String.length line <= 90)%nat -> truncate line = line.
Proof.
  intros H; unfold truncate.
  destruct (Nat.ltb_spec 90 (String.length line)); [lia | reflexivity].
Qed.

Lemma truncate_long (line : string) :
  (90 < String.length line)%nat ->
  truncate line = (substring 0 87 line ++ "...")%string
  /\ String.length (truncate line) = 90%nat.
Proof.
  intros H; unfold truncate.
  destruct (Nat.ltb_spec 90 (String.length line)); [|lia].
  split; [reflexivity|].
  rewrite length_append, length_prefix.
  change (String.length "...") with 3%nat. lia.
Qed.

Lemma length_truncate (line : string) :
  (String.length (truncate line) <= 90)%nat.
Proof.
  destruct (Nat.le_gt_cases (String.length line) 90) as [H|H].
  - now rewrite truncate_short.
  - apply truncate_long in H as [_ ->]. lia.
Qed.

Lemma split_not_nil (text : string) : split text <> [].
Proof.
  destruct text as [|c rest]; simpl; [discriminate|].
  destruct (Ascii.eqb c newline); [discriminate|].
  destruct (split rest); discriminate.
Qed.

(** ** The loop *)

Lemma save_code (pdf : canvas) :
  code pdf <> [] -> save pdf = pages pdf ++ [code pdf].
Proof.
  destruct pdf as [[|o c] ps]; simpl; [congruence | reflexivity].
Qed.

Lemma draw_lines_cons (line : string) (lines : list string) (st : canvas * Z) :
  draw_lines (line :: lines) st = draw_lines lines (draw_line st line).
Proof. reflexivity. Qed.

(** From any canvas with an open page: the rows of the loop fill that page
    from [y_position] down, then whole pages from 800 down, and their texts
    are the truncated lines in order. *)
Lemma draw_lines_pages (lines : list string) :
  forall (pdf : canvas) (y : Z),
    code pdf <> [] ->
    exists (rows : list row) (more : list (list row)),
      save (fst (draw_lines lines (pdf, y)))
      = pages pdf ++ (code pdf ++ map draw rows) :: map later_page more
      /\ map snd (rows ++ List.concat more) = map truncate lines
      /\ steps_down y (map fst rows)
      /\ ((50 <= y)%Z -> lines <> [] -> rows <> [])
      /\ Forall (starts_at 800) more.
Proof.
  induction lines as [|line lines IH]; intros pdf y Hc.
  - exists [], []; simpl. rewrite app_nil_r.
    repeat split; auto using save_code.
  - rewrite draw_lines_cons; unfold draw_line.
    destruct (Z.ltb_spec y 50) as [Hy|Hy].
    + destruct (IH (drawString 40 800 (truncate line)
                      (setFont "Helvetica" 10 (showPage pdf))) (800 - 15)%Z)
        as (rows & more & E & Ht & Hs & _ & Hm); [simpl; discriminate|].
      exists [], (((800%Z, truncate line) :: rows) :: more).
      rewrite E; simpl. rewrite app_nil_r, <- app_assoc.
      repeat split; auto; try lia.
      * now rewrite <- Ht.
      * constructor; [|exact Hm]. split; [discriminate | simpl; auto].
    + destruct (IH (drawString 40 y (truncate line) pdf) (y - 15)%Z)
        as (rows & more & E & Ht & Hs & _ & Hm).
      { simpl. destruct (code pdf); discriminate. }
      exists ((y, truncate line) :: rows), more.
      rewrite E; simpl. rewrite <- app_assoc.
      repeat split; auto; try discriminate.
      now rewrite <- Ht.
Qed.

(** The document: a first page under the title, filled from 770 down, and
    pages filled from 800 down. *)
Lemma build_pdf_pages (text : string) :
  exists (rows : list row) (more : list (list row)),
    build_pdf text = first_page rows :: map later_page more
    /\ map snd (rows ++ List.concat more) = map truncate (split text)
    /\ starts_at 770 rows
    /\ Forall (starts_at 800) more.
Proof.
  unfold build_pdf.
  destruct (draw_lines_pages (split text)
              (setFont "Helvetica" 10
                 (drawString 40 800 title
                    (setFont "Helvetica-Bold" 16 new_canvas))) 770%Z)
    as (rows & more & E & Ht & Hs & Hn & Hm); [simpl; discriminate|].
  exists rows, more; rewrite E.
  repeat split; auto.
  apply Hn; [lia | apply split_not_nil].
Qed.

(** ** What is seen on the pages *)

Lemma placements_from_draws (font : string) (size : Z) (rows : list row) :
  placements_from font size (map draw rows)
  = map (fun r => Placement font size 40 (fst r) (snd r)) rows.
Proof. induction rows as [|r rows IH]; simpl; [reflexivity | now rewrite IH]. Qed.

Lemma filter_body (rows : list row) :
  filter is_body (map body_placement rows) = map body_placement rows.
Proof. induction rows as [|r rows IH]; simpl; [reflexivity | now rewrite IH]. Qed.

Lemma placements_first_page (rows : list row) :
  placements (first_page rows) = title_placement :: map body_placement rows.
Proof.
  unfold placements, first_page; simpl. now rewrite placements_from_draws.
Qed.

Lemma placements_later_page (rows : list row) :
  placements (later_page rows) = map body_placement rows.
Proof.
  unfold placements, later_page; simpl. now rewrite placements_from_draws.
Qed.

Lemma analysis_first_page (rows : list row) :
  analysis_lines (first_page rows) = map body_placement rows.
Proof.
  unfold analysis_lines. rewrite placements_first_page; simpl.
  apply filter_body.
Qed.

Lemma analysis_later_page (rows : list row) :
  analysis_lines (later_page rows) = map body_placement rows.
Proof.
  unfold analysis_lines. rewrite placements_later_page. apply filter_body.
Qed.

Lemma analysis_later_pages (more : list (list row)) :
  flat_map analysis_lines (map later_page more)
  = map body_placement (List.concat more).
Proof.
  induction more as [|rows more IH]; simpl; [reflexivity|].
  now rewrite analysis_later_page, IH, map_app.
Qed.

Lemma placements_later_pages (more : list (list row)) :
  flat_map placements (map later_page more)
  = map body_placement (List.concat more).
Proof.
  induction more as [|rows more IH]; simpl; [reflexivity|].
  now rewrite placements_later_page, IH, map_app.
Qed.

Lemma text_of_rows (rows : list row) :
  map p_text (map body_placement rows) = map snd rows.
Proof. rewrite map_map; reflexivity. Qed.

Lemma offset_of_rows (rows : list row) :
  map p_y (map body_placement rows) = map fst rows.
Proof. rewrite map_map; reflexivity. Qed.

(** The analysis lines of the document are the truncated lines of the text,
    in order. *)
Lemma placed_truncated (text : string) :
  placed_lines (build_pdf text) = map truncate (split text).
Proof.
  destruct (build_pdf_pages text) as (rows & more & -> & Ht & _).
  unfold placed_lines; simpl.
  rewrite analysis_first_page, analysis_later_pages, <- map_app, text_of_rows.
  exact Ht.
Qed.

Lemma first_offset (y : Z) (rows : list row) :
  starts_at y rows ->
  option_map p_y (hd_error (map body_placement rows)) = Some y.
Proof.
  intros [Hn Hs]; destruct rows as [|r rows]; [congruence|].
  simpl in *. now destruct Hs as [-> _].
Qed.

(** C2, as the code has it: the analysis lines of the document, page after
    page and top to bottom, are the lines of the text in order, each one as
    the width rule leaves it, as many as the text has; they are the lines
    themselves when none is longer than 90 characters; and on every page
    they go down 15 at a time from the first. *)
Theorem lines_placed_in_order (text : string) :
  placed_lines (build_pdf text) = map truncate (split text)
  /\ List.length (placed_lines (build_pdf text)) = List.length (split text)
  /\ (Forall (fun line => String.length line <= 90)%nat (split text) ->
      placed_lines (build_pdf text) = split text)
  /\ Forall (fun p => exists top, steps_down top (offsets p)) (build_pdf text).
Proof.
  split; [apply placed_truncated|].
  split; [rewrite placed_truncated; apply length_map|].
  split.
  - intros H; rewrite placed_truncated.
    induction H as [|line lines Hl _ IH]; simpl; [reflexivity|].
    now rewrite truncate_short, IH.
  - destruct (build_pdf_pages text) as (rows & more & -> & _ & Hr & Hm).
    constructor.
    + exists 770%Z; unfold offsets.
      rewrite analysis_first_page, offset_of_rows. apply Hr.
    + apply Forall_map_intro_in.
      intros rs Hin; exists 800%Z; unfold offsets.
      rewrite analysis_later_page, offset_of_rows.
      rewrite Forall_forall in Hm. now apply Hm.
Qed.

Lemma lines_placed_in_order_witness :
  Forall (fun line => String.length line <= 90)%nat (split Samples.two_lines)
  /\ placed_lines (build_pdf Samples.two_lines) = ["Summary"; "ok"].
Proof.
  assert (H : Forall (fun line => String.length line <= 90)%nat
                (split Samples.two_lines)).
  { repeat constructor; simpl; lia. }
  split; [exact H|].
  destruct (lines_placed_in_order Samples.two_lines) as (_ & _ & E & _).
  rewrite (E H). reflexivity.
Defined.

(** C2, as stated, fails on a line of 91 characters: what is placed is not
    the line of the text. *)
Lemma long_line_not_reconstructed :
  placed_lines (build_pdf Samples.long_line) <> split Samples.long_line.
Proof.
  intros H. apply (f_equal (map (fun s => String.get 87 s))) in H.
  vm_compute in H. discriminate.
Qed.

(** C3: a line of the text longer than 90 characters is placed as a string
    of at most 93 characters that ends with "..."; a line of at most 90
    characters is placed as it is. *)
Theorem long_lines_end_with_ellipsis (text : string) (i : nat) (line : string) :
  nth_error (split text) i = Some line ->
  exists placed,
    nth_error (placed_lines (build_pdf text)) i = Some placed
    /\ ((90 < String.length line)%nat ->
        (String.length placed <= 90 + 3)%nat /\ ends_with placed "...")
    /\ ((String.length line <= 90)%nat -> placed = line).
Proof.
  intros H; exists (truncate line).
  rewrite placed_truncated, nth_error_map, H.
  split; [reflexivity|]. split.
  - intros L; pose proof (length_truncate line).
    split; [lia|]. apply truncate_long in L as [-> _].
    now exists (substring 0 87 line).
  - apply truncate_short.
Qed.

Lemma long_lines_end_with_ellipsis_witness :
  exists placed,
    nth_error (placed_lines (build_pdf Samples.long_line)) 0 = Some placed
    /\ (String.length placed <= 90 + 3)%nat /\ ends_with placed "...".
Proof.
  destruct (long_lines_end_with_ellipsis Samples.long_line 0
              Samples.long_line eq_refl) as (placed & E & L & _).
  exists placed; split; [exact E|].
  apply L. vm_compute. lia.
Defined.

(** C4, as the code has it: the first analysis line of the first page is at
    770, under the title drawn at 800; the first analysis line of every
    other page is at 800, the offset set after a page break. *)
Theorem first_line_offsets (text : string) :
  exists (first : page) (rest : list page),
    build_pdf text = first :: rest
    /\ first_line_offset first = Some 770%Z
    /\ Forall (fun p => first_line_offset p = Some 800%Z) rest.
Proof.
  destruct (build_pdf_pages text) as (rows & more & -> & _ & Hr & Hm).
  do 2 eexists; split; [reflexivity|]. split.
  - unfold first_line_offset. rewrite analysis_first_page.
    now apply first_offset.
  - apply Forall_map_intro_in; intros rs Hin.
    unfold first_line_offset. rewrite analysis_later_page.
    apply first_offset. rewrite Forall_forall in Hm. now apply Hm.
Qed.

(** C4, as stated, fails on a text of 50 lines: its first page starts at
    770 and its second at 800. *)
Lemma first_page_starts_lower :
  map first_line_offset (build_pdf Samples.fifty_lines)
  = [Some 770%Z; Some 800%Z]
  /\ ~ (forall p, In p (build_pdf Samples.fifty_lines) ->
                  first_line_offset p = Some 800%Z).
Proof.
  split; [vm_compute; reflexivity|].
  intros H.
  assert (E : hd_error (map first_line_offset (build_pdf Samples.fifty_lines))
              = Some (Some 800%Z)).
  { destruct (build_pdf Samples.fifty_lines) as [|p ps] eqn:B;
      [vm_compute in B; discriminate|].
    simpl. rewrite (H p); [reflexivity | now left]. }
  vm_compute in E. discriminate.
Qed.

(** C9: every string drawn into the document, title included, has at most
    90 characters; a line of the text longer than 90 characters is drawn as
    its first 87 characters followed by "...", 90 characters in all. *)
Theorem drawn_lines_fit (text : string) :
  Forall (fun p => String.length (p_text p) <= 90)%nat
    (flat_map placements (build_pdf text))
  /\ (forall (i : nat) (line : string),
        nth_error (split text) i = Some line ->
        (90 < String.length line)%nat ->
        nth_error (placed_lines (build_pdf text)) i
        = Some (substring 0 87 line ++ "...")%string
        /\ String.length (substring 0 87 line ++ "...") = 90%nat).
Proof.
  split.
  - destruct (build_pdf_pages text) as (rows & more & -> & Ht & _).
    cbn [flat_map].
    rewrite placements_first_page, placements_later_pages; cbn [app].
    constructor; [vm_compute; lia|].
    rewrite <- map_app. apply Forall_map_intro_in; intros r Hin; simpl.
    assert (Hs : In (snd r) (map truncate (split text))).
    { rewrite <- Ht. now apply in_map. }
    apply in_map_iff in Hs as (line & <- & _). apply length_truncate.
  - intros i line H L. rewrite placed_truncated, nth_error_map, H; simpl.
    destruct (truncate_long line L) as [E El]. rewrite <- E. auto.
Qed.

Lemma drawn_lines_fit_witness :
  nth_error (placed_lines (build_pdf Samples.long_line)) 0
  = Some (substring 0 87 Samples.long_line ++ "...")%string
  /\ String.length (substring 0 87 Samples.long_line ++ "...") = 90%nat.
Proof.
  destruct (drawn_lines_fit Samples.long_line) as [_ H].
  apply (H 0%nat Samples.long_line); [reflexivity | vm_compute; lia].
Defined.

(* ================================================================== *)
(** * Properties of the handler *)

Import Handler.

Example collect_hello :
  collect "" (Chunk "Hello " (Chunk "World" (Chunk "!" StreamEnd)))
  = inl "Hello World!".
Proof. reflexivity. Qed.

Example analysis_succeeds :
  analyze_figma Samples.found Samples.hello Samples.no_dumps
    Samples.configured
  = ([FigmaGet "https://api.figma.com/v1/files/file"
        [("X-Figma-Token", "token")];
      GeminiGenerate "models/gemini-2.0-flash-exp"
        (prompt_of Samples.no_dumps (summary_of Samples.small_file))],
     Document (build_pdf "Hello World!") "application/pdf"
       [("Content-Disposition", "attachment; filename=figma_analysis.pdf")]).
Proof. reflexivity. Qed.

Example analysis_generation_fails :
  snd (analyze_figma Samples.found Samples.refusing Samples.no_dumps
         Samples.configured)
  = JsonPayload (JObj [("error", JStr "Gemini API error: quota exceeded")]).
Proof. reflexivity. Qed.

Lemma unset_none (v : option string) : v = None -> unset v = true.
Proof. now intros ->. Qed.

(** C7: when the design-file request is answered with a status other than
    200, the handler returns the payload {"error": "failed to fetch figma"};
    the request is the only outbound call it made, so the generative-text
    service is not invoked, and the response is not a document. *)
Theorem fetch_failure_short_circuits
        (requests_get : string -> list (string * string) -> fetched)
        (generate_content : string -> string -> stream)
        (json_dumps : json -> string)
        (cfg : env) (status_code : Z) (body : option json) :
  unset (FIGMA_TOKEN cfg) = false ->
  unset (FILE_KEY cfg) = false ->
  unset (GEMINI_API_KEY cfg) = false ->
  requests_get (figma_url cfg) (figma_headers cfg)
  = Responded status_code body ->
  status_code <> 200%Z ->
  let (log, res) :=
    analyze_figma requests_get generate_content json_dumps cfg in
  res = JsonPayload (JObj [("error", JStr "failed to fetch figma")])
  /\ log = [FigmaGet (figma_url cfg) (figma_headers cfg)]
  /\ calls_gemini log = false
  /\ is_document res = false.
Proof.
  intros Ht Hf Hg Hr Hs; unfold analyze_figma.
  rewrite Ht, Hf, Hg, Hr; simpl.
  apply Z.eqb_neq in Hs; rewrite Hs; simpl. auto.
Qed.

Lemma fetch_failure_short_circuits_witness :
  analyze_figma Samples.not_found Samples.silent Samples.no_dumps
    Samples.configured
  = ([FigmaGet "https://api.figma.com/v1/files/file"
        [("X-Figma-Token", "token")]],
     JsonPayload (JObj [("error", JStr "failed to fetch figma")])).
Proof.
  pose proof (fetch_failure_short_circuits Samples.not_found Samples.silent
                Samples.no_dumps Samples.configured 404 None
                eq_refl eq_refl eq_refl eq_refl) as H.
  destruct (analyze_figma Samples.not_found Samples.silent Samples.no_dumps
              Samples.configured) as [log res].
  destruct H as (-> & -> & _); [discriminate | reflexivity].
Defined.

(** C8: when one of the three settings is absent, the handler returns the
    configuration error payload and has made no outbound call: neither the
    design-file request nor the generation is issued, whatever the services
    would answer. *)
Theorem missing_credentials_no_calls
        (requests_get : string -> list (string * string) -> fetched)
        (generate_content : string -> string -> stream)
        (json_dumps : json -> string)
        (cfg : env) :
  FIGMA_TOKEN cfg = None \/ FILE_KEY cfg = None \/ GEMINI_API_KEY cfg = None ->
  analyze_figma requests_get generate_content json_dumps cfg
  = ([], JsonPayload (JObj [("error", JStr "Missing env vars")])).
Proof.
  intros H; unfold analyze_figma.
  assert (E : unset (FIGMA_TOKEN cfg) || unset (FILE_KEY cfg)
              || unset (GEMINI_API_KEY cfg) = true).
  { destruct H as [H | [H | H]]; rewrite (unset_none _ H);
      rewrite ?orb_true_r; reflexivity. }
  rewrite E; reflexivity.
Qed.

Lemma missing_credentials_no_calls_witness :
  analyze_figma Samples.not_found Samples.silent Samples.no_dumps
    (Env None (Some "token") (Some "file"))
  = ([], JsonPayload (JObj [("error", JStr "Missing env vars")])).
Proof.
  apply missing_credentials_no_calls. right; right; reflexivity.
Defined.

(* ================================================================== *)
(** * Where the extractor returns *)

Import Domain.

Lemma mapM_ok_forallb {A B} (f : A -> result B) (ok : A -> bool) :
  (forall x y, f x = Ok y -> ok x = true) ->
  forall l out, mapM f l = Ok out -> forallb ok l = true.
Proof.
  intros Hf; induction l as [|x l IH]; simpl; intros out H; [reflexivity|].
  peel H. now rewrite (Hf _ _ Ha), (IH _ Ha0).
Qed.

Lemma chars_nil (s : string) : chars s = [] -> s = "".
Proof. destruct s; [reflexivity | discriminate]. Qed.

Lemma page_info_accepted (page : json) :
  page_accepted page = true -> page_info page = Ok (page_of page).
Proof.
  unfold page_accepted; intros H; apply andb_true_iff in H as [Ho Hs].
  apply is_obj_true in Ho as [fields ->].
  unfold page_info, page_of, child_nodes. rewrite !dict_get_obj.
  destruct (get_or (JObj fields) "children" (JArr [])) as [| | | |s|items|];
    try discriminate; cbn [bind slice_to iterate items_of sliceable] in *.
  - apply String.eqb_eq in Hs; rewrite Hs, firstn_nil; reflexivity.
  - now rewrite (mapM_total frame_info frame_of is_obj frame_info_total).
Qed.

Lemma page_info_accepts (page e : json) :
  page_info page = Ok e -> page_accepted page = true.
Proof.
  unfold page_info, page_accepted; intros H; peel H.
  apply dict_get_ok in Ha as [-> _], Ha1 as [_ ->]; cbn [andb].
  pose proof (iterate_ok frame_info _ _ _ (fun _ => eq_refl) Ha3 Ha4) as ->.
  apply (mapM_ok_forallb frame_info is_obj) in Ha4;
    [|intros x y Hx; now apply frame_info_ok in Hx].
  destruct (get_or page "children" (JArr [])); try discriminate;
    cbn [slice_to sliceable] in *; inversion Ha2; subst a2.
  - simpl in Ha3; inversion Ha3 as [Hc].
    destruct (substring 0 20 s); [reflexivity|].
    simpl in Ha4; discriminate.
  - exact Ha4.
Qed.

Lemma pages_accepted (v : json) :
  loopable page_accepted v = true ->
  (nodes <- iterate v ;; mapM page_info nodes)
  = Ok (map page_of (items_of v)).
Proof.
  destruct v as [| | | |s|items|fields]; try discriminate; simpl; intros H.
  - apply String.eqb_eq in H; subst; reflexivity.
  - apply (mapM_total page_info page_of _ page_info_accepted _ H).
  - destruct fields; [reflexivity | discriminate].
Qed.

Lemma pages_accepts (v : json) (nodes out : list json) :
  iterate v = Ok nodes -> mapM page_info nodes = Ok out ->
  loopable page_accepted v = true.
Proof.
  intros Hi Hm.
  destruct v as [| | | |s|items|fields]; try discriminate;
    simpl in *; inversion Hi; subst nodes.
  - destruct s; [reflexivity | simpl in Hm; discriminate].
  - apply (mapM_ok_forallb page_info page_accepted page_info_accepts _ _ Hm).
  - destruct fields; [reflexivity | simpl in Hm; discriminate].
Qed.

Lemma falsy_key_names (v : json) : truthy v = false -> key_names v = [].
Proof.
  destruct v; try reflexivity; simpl.
  destruct fields; [reflexivity | discriminate].
Qed.

Lemma style_keys_accepted (data : json) (key : string) :
  is_obj data = true -> styles_accepted (field data key) = true ->
  style_keys data key = Ok (key_names (field data key)).
Proof.
  intros Ho H; apply is_obj_true in Ho as [fields ->].
  unfold style_keys. rewrite !dict_get_obj. fold (field (JObj fields) key).
  cbn [bind]. unfold styles_accepted in H.
  destruct (truthy (field (JObj fields) key)) eqn:T.
  - assert (E : get_or (JObj fields) key (JObj []) = field (JObj fields) key).
    { unfold field, get_or in *.
      destruct (entry (JObj fields) key); [reflexivity | discriminate]. }
    rewrite E. destruct (field (JObj fields) key); try discriminate.
    reflexivity.
  - now rewrite falsy_key_names.
Qed.

Lemma style_keys_accepts (data : json) (key : string) (ks : list json) :
  style_keys data key = Ok ks -> styles_accepted (field data key) = true.
Proof.
  unfold style_keys, styles_accepted; intros H; peel H.
  apply dict_get_ok in Ha as [Ho ->]. fold (field data key) in H.
  destruct (truthy (field data key)) eqn:T; [|reflexivity].
  peel H. apply dict_get_ok in Ha as [_ ->].
  assert (E : get_or data key (JObj []) = field data key).
  { unfold field, get_or in *.
    destruct (entry data key); [reflexivity | discriminate]. }
  rewrite E in Ha0. destruct (field data key); try discriminate. reflexivity.
Qed.

Lemma extract_accepted (data : json) :
  accepted data = true -> extract_figma_summary data = Ok (summary_of data).
Proof.
  unfold accepted; intros H.
  apply andb_true_iff in H as [H Hc]; apply andb_true_iff in H as [H Hs].
  apply andb_true_iff in H as [Ho Hd]; apply andb_true_iff in Hd as [Hd Hp].
  unfold extract_figma_summary.
  rewrite (style_keys_accepted _ _ Ho Hs), (style_keys_accepted _ _ Ho Hc).
  destruct (is_obj_true _ Ho) as [fields ->].
  destruct (is_obj_true _ Hd) as [dfields Ed].
  rewrite !dict_get_obj; cbn [bind].
  fold (document_of (JObj fields)); rewrite Ed, dict_get_obj; cbn [bind].
  rewrite Ed in Hp. apply pages_accepted in Hp.
  unfold bind in Hp |- *.
  destruct (iterate (get_or (JObj dfields) "children" (JArr [])));
    [|discriminate].
  rewrite Hp. unfold summary_of, child_nodes. now rewrite Ed.
Qed.

Lemma extract_accepts (data s : json) :
  extract_figma_summary data = Ok s -> accepted data = true.
Proof.
  unfold extract_figma_summary, accepted; intros H; peel H.
  apply dict_get_ok in Ha as [-> _], Ha1 as [_ ->], Ha2 as [Hd ->].
  fold (document_of data) in *. rewrite Hd; cbn [andb].
  rewrite (pages_accepts _ _ _ Ha3 Ha4).
  now rewrite (style_keys_accepts _ _ _ Ha5), (style_keys_accepts _ _ _ Ha6).
Qed.

(** ** The two levels, and the defaults *)


(** C5: the extractor reads two levels below the root.  A document stripped
    of everything below its second-level children, and of every field of
    those but name, type and background colour, has the same summary (or
    the same failure), so two documents that agree down to there are not
    told apart; on every document it accepts the extractor returns a
    summary whose pages are the first-level children of the root, the
    frames of a page being its first 20 children and a frame entry the
    node's name, type and background colour alone; and it returns no other
    summary. *)
Theorem two_levels_only (data : json) :
  extract_figma_summary (prune data) = extract_figma_summary data
  /\ (forall data',
        prune data' = prune data ->
        extract_figma_summary data' = extract_figma_summary data)
  /\ (accepted data = true ->
      exists summary,
        extract_figma_summary data = Ok summary
        /\ entry summary "pages"
           = Some (JArr (map page_of (child_nodes (document_of data)))))
  /\ (forall summary,
        extract_figma_summary data = Ok summary ->
        entry summary "pages"
        = Some (JArr (map page_of (child_nodes (document_of data))))).
Proof.
  split; [apply extract_prune|]. split; [|split].
  - intros data' E.
    now rewrite <- (extract_prune data'), E, extract_prune.
  - intros A; exists (summary_of data).
    split; [now apply extract_accepted | reflexivity].
  - intros summary H; apply extract_ok in H as [_ ->]; reflexivity.
Qed.

Lemma two_levels_only_witness :
  extract_figma_summary (prune Samples.small_file)
  = extract_figma_summary Samples.small_file
  /\ extract_figma_summary Samples.shallow_file
     = extract_figma_summary Samples.small_file
  /\ exists summary,
       extract_figma_summary Samples.small_file = Ok summary
       /\ entry summary "pages"
          = Some (JArr [JObj [("name", JStr "Page 1");
                              ("type", JStr "CANVAS");
                              ("frames",
                               JArr [JObj [("name", JStr "Home");
                                           ("type", JStr "FRAME");
                                           ("background", JNull)];
                                     JObj [("name", JStr "Login");
                                           ("type", JStr "FRAME");
                                           ("background", JNull)]])];
                        JObj [("name", JNull); ("type", JStr "CANVAS");
                              ("frames", JArr [])]]).
Proof.
  destruct (two_levels_only Samples.small_file) as (H1 & H2 & H3 & _).
  split; [exact H1|].
  split; [apply H2; reflexivity|].
  destruct (H3 eq_refl) as (summary & E & P).
  exists summary; split; [exact E|].
  rewrite P. reflexivity.
Defined.




(** X1: the extractor returns exactly on the documents [accepted]
    describes, and then returns [summary_of]; on every other value it
    raises.  It needs dicts where it calls [.get], lists (or an empty str
    or dict) where it iterates, and under ["styles"] and ["componentSets"]
    a dict or a value that counts as false. *)
Theorem extractor_domain (data : json) :
  if accepted data
  then extract_figma_summary data = Ok (summary_of data)
  else exists e, extract_figma_summary data = Raise e.
Proof.
  destruct (accepted data) eqn:A; [now apply extract_accepted|].
  destruct (extract_figma_summary data) as [s|e] eqn:E; [|eauto].
  apply extract_accepts in E; congruence.
Qed.

(** ** What the extractor does not look at *)

Lemma style_keys_on_field_other (key k : string) (g : json -> json)
      (data : json) :
  String.eqb k key = false ->
  style_keys (on_field key g data) k = style_keys data k.
Proof.
  intros Hk; unfold style_keys.
  now rewrite !dict_get_on_field_other by assumption.
Qed.

Lemma extract_on_pages (g : json -> json) (data : json) :
  (forall page, page_info (g page) = page_info page) ->
  extract_figma_summary
    (on_field "document" (on_field "children" (on_items g)) data)
  = extract_figma_summary data.
Proof.
  intros Hg; unfold extract_figma_summary.
  rewrite !style_keys_on_field_other by reflexivity.
  rewrite !dict_get_on_field_other by reflexivity.
  destruct (dict_get data "name" _); [cbn [bind] | reflexivity].
  destruct (dict_get data "version" _); [cbn [bind] | reflexivity].
  rewrite dict_get_on_field by reflexivity.
  destruct (dict_get data "document" _) as [doc|]; [cbn [bind] | reflexivity].
  rewrite dict_get_on_field by reflexivity.
  destruct (dict_get doc "children" _) as [ch|]; [cbn [bind] | reflexivity].
  destruct ch; try reflexivity; cbn [on_items iterate bind].
  now rewrite mapM_map, (mapM_ext _ page_info).
Qed.

Lemma slice_take_items (n : nat) (v : json) :
  slice_to n (take_items n v) = slice_to n v.
Proof.
  destruct v; try reflexivity; cbn [take_items slice_to].
  now rewrite firstn_firstn, Nat.min_id.
Qed.

Lemma page_info_cap (page : json) : page_info (cap_page page) = page_info page.
Proof.
  unfold page_info, cap_page.
  rewrite !dict_get_on_field_other by reflexivity.
  destruct (dict_get page "name" JNull); [cbn [bind] | reflexivity].
  destruct (dict_get page "type" JNull); [cbn [bind] | reflexivity].
  rewrite dict_get_on_field by reflexivity.
  destruct (dict_get page "children" (JArr [])) as [ch|];
    [cbn [bind] | reflexivity].
  now rewrite slice_take_items.
Qed.

(** X2: the children of a page after the 20th are never looked at: with
    them dropped, whatever they were, the extractor returns the same
    summary or raises the same exception. *)
Theorem frames_after_20_ignored (data : json) :
  extract_figma_summary (cap data) = extract_figma_summary data.
Proof. apply extract_on_pages, page_info_cap. Qed.

Lemma truthy_with_values (g : json -> json) (v : json) :
  truthy (with_values g v) = truthy v.
Proof. destruct v; try reflexivity. destruct fields; reflexivity. Qed.

Lemma keys_with_values (g : json -> json) (v : json) :
  keys (with_values g v) = keys v.
Proof.
  destruct v; try reflexivity; cbn [with_values keys].
  now rewrite map_map.
Qed.

Lemma style_keys_with_values (g : json -> json) (key : string) (data : json) :
  style_keys (on_field key (with_values g) data) key = style_keys data key.
Proof.
  unfold style_keys. rewrite !dict_get_on_field by reflexivity.
  destruct (dict_get data key JNull) as [x|] eqn:E1; [cbn [bind] | reflexivity].
  rewrite truthy_with_values.
  destruct (truthy x); [|reflexivity].
  destruct (dict_get data key (JObj [])) as [y|]; [cbn [bind] | reflexivity].
  now rewrite keys_with_values.
Qed.

Lemma extract_with_values (g : json -> json) (key : string) (data : json) :
  key = "styles" \/ key = "componentSets" ->
  extract_figma_summary (on_field key (with_values g) data)
  = extract_figma_summary data.
Proof.
  intros [-> | ->]; unfold extract_figma_summary.
  - rewrite style_keys_with_values, style_keys_on_field_other by reflexivity.
    now rewrite !dict_get_on_field_other by reflexivity.
  - rewrite style_keys_with_values, style_keys_on_field_other by reflexivity.
    now rewrite !dict_get_on_field_other by reflexivity.
Qed.

(** X3: the two style lists of a returned summary are the first 10 keys, in
    the order the dicts hold them, of ["styles"] and of ["componentSets"];
    what is stored under the keys plays no part: with every value of the
    two dicts replaced, the extractor gives the same result. *)
Theorem style_lists_are_first_keys (data : json) (g h : json -> json) :
  extract_figma_summary
    (on_field "styles" (with_values g)
       (on_field "componentSets" (with_values h) data))
  = extract_figma_summary data
  /\ (forall summary,
        extract_figma_summary data = Ok summary ->
        entry (field summary "styles") "colors"
        = Some (JArr (firstn 10 (map (fun kv => JStr (fst kv))
                                   (fields_of (field data "styles")))))
        /\ entry (field summary "styles") "text_styles"
           = Some (JArr (firstn 10
                           (map (fun kv => JStr (fst kv))
                              (fields_of (field data "componentSets")))))).
Proof.
  split.
  - now rewrite !extract_with_values by auto.
  - intros summary H; apply extract_ok in H as [_ ->]. split; reflexivity.
Qed.

Lemma style_lists_are_first_keys_witness :
  extract_figma_summary Samples.big_file
  = extract_figma_summary
      (on_field "styles" (with_values (fun _ => JNull))
         (on_field "componentSets" (with_values (fun _ => JInt 1))
            Samples.big_file))
  /\ entry (field (summary_of Samples.big_file) "styles") "colors"
     = Some (JArr (map JStr (firstn 10 Samples.ids))).
Proof.
  destruct (style_lists_are_first_keys Samples.big_file
              (fun _ => JNull) (fun _ => JInt 1)) as [H1 H2].
  split; [now rewrite H1|].
  destruct (H2 (summary_of Samples.big_file) eq_refl) as [-> _].
  reflexivity.
Defined.

(* ================================================================== *)
(** * More on the [/analysis] handler *)

Import Paging Pipeline.

Lemma append_empty (s : string) : (s ++ "")%string = s.
Proof. induction s; simpl; congruence. Qed.

Lemma append_assoc (a b c : string) :
  ((a ++ b) ++ c)%string = (a ++ (b ++ c))%string.
Proof. induction a; simpl; congruence. Qed.

Lemma collect_chunks (texts : list string) (tail : stream) :
  forall analysis_text,
    collect analysis_text (chunks texts tail)
    = collect (analysis_text ++ join texts) tail.
Proof.
  induction texts as [|text texts IH]; intros acc; simpl.
  - now rewrite append_empty.
  - rewrite IH, <- append_assoc.
    destruct (String.eqb_spec text "") as [->|_]; [|reflexivity].
    now rewrite append_empty.
Qed.

(** X4: the chunks of a generation that ends normally are concatenated in
    arrival order into the analysis text, empty chunks included or not; a
    generation that raises gives the message of the exception, whatever
    had arrived before. *)
Theorem chunks_concatenated (texts : list string) (message : string) :
  collect "" (chunks texts StreamEnd) = inl (join texts)
  /\ collect "" (chunks texts (StreamError message)) = inr message.
Proof. split; now rewrite collect_chunks. Qed.

Section HandlerFacts.

Variable requests_get : string -> list (string * string) -> fetched.
Variable generate_content : string -> string -> stream.
Variable json_dumps : json -> string.
Variable cfg : env.

Lemma configured_run :
  all_set cfg ->
  analyze_figma requests_get generate_content json_dumps cfg
  = match requests_get (figma_url cfg) (figma_headers cfg) with
    | NoResponse => ([request cfg], Unhandled RequestFailed)
    | Responded status_code body =>
        if negb (Z.eqb status_code 200)
        then ([request cfg], error_payload "failed to fetch figma")
        else
          match body with
          | None => ([request cfg], Unhandled InvalidBody)
          | Some figma_json =>
              match extract_figma_summary figma_json with
              | Raise e => ([request cfg], Unhandled (SummaryFailed e))
              | Ok summary =>
                  match collect ""
                          (generate_content "models/gemini-2.0-flash-exp"
                             (prompt_of json_dumps summary)) with
                  | inr message =>
                      ([request cfg; generation json_dumps summary],
                       error_payload ("Gemini API error: " ++ message)%string)
                  | inl analysis_text =>
                      ([request cfg; generation json_dumps summary],
                       report analysis_text)
                  end
              end
          end
    end.
Proof.
  intros (Ht & Hf & Hg); unfold analyze_figma.
  rewrite Ht, Hf, Hg; cbn [orb].
  destruct (requests_get _ _) as [status_code body|]; [|reflexivity].
  destruct (negb _); [reflexivity|].
  destruct body as [figma_json|]; [|reflexivity].
  destruct (extract_figma_summary figma_json); [|reflexivity].
  destruct (collect _ _); reflexivity.
Qed.

Lemma unconfigured_run :
  ~ all_set cfg ->
  analyze_figma requests_get generate_content json_dumps cfg
  = ([], error_payload "Missing env vars").
Proof.
  intros H; unfold analyze_figma, all_set in *.
  destruct (unset (FIGMA_TOKEN cfg)), (unset (FILE_KEY cfg)),
    (unset (GEMINI_API_KEY cfg)); try reflexivity.
  exfalso; apply H; auto.
Qed.

Lemma all_set_dec : all_set cfg \/ ~ all_set cfg.
Proof.
  unfold all_set.
  destruct (unset (FIGMA_TOKEN cfg)), (unset (FILE_KEY cfg)),
    (unset (GEMINI_API_KEY cfg)); intuition discriminate.
Qed.

(** X5: the handler asks nothing of the outside exactly when a setting is
    unset, an empty value counting as unset; with the three settings there
    its first call is always the design-file request, to the URL made of
    FILE_KEY and with the token in the X-Figma-Token header. *)
Theorem settings_decide_first_call :
  (~ all_set cfg <->
   analyze_figma requests_get generate_content json_dumps cfg
   = ([], JsonPayload (JObj [("error", JStr "Missing env vars")])))
  /\ (all_set cfg ->
      exists rest,
        fst (analyze_figma requests_get generate_content json_dumps cfg)
        = FigmaGet
            ("https://api.figma.com/v1/files/" ++ text_of (FILE_KEY cfg))%string
            [("X-Figma-Token", text_of (FIGMA_TOKEN cfg))] :: rest).
Proof.
  assert (F : all_set cfg ->
              exists rest,
                fst (analyze_figma requests_get generate_content json_dumps cfg)
                = request cfg :: rest).
  { intros H; rewrite (configured_run H).
    destruct (requests_get _ _) as [status_code body|]; [|simpl; eauto].
    destruct (negb _); [simpl; eauto|].
    destruct body as [figma_json|]; [|simpl; eauto].
    destruct (extract_figma_summary figma_json); [|simpl; eauto].
    destruct (collect _ _); simpl; eauto. }
  split; [split|exact F].
  - apply unconfigured_run.
  - intros E H. destruct (F H) as [rest Hr]. rewrite E in Hr. discriminate.
Qed.

(** X6: the handler makes at most two calls and never repeats one: its log
    is empty, or the design-file request alone, or the request followed by
    one generation; and a generation is issued only after a 200 response
    whose body the extractor summarised, with the prompt built from that
    summary. *)
Theorem calls_in_pipeline_order :
  let log := fst (analyze_figma requests_get generate_content json_dumps cfg) in
  log = []
  \/ log = [request cfg]
  \/ exists body summary,
       requests_get (figma_url cfg) (figma_headers cfg)
       = Responded 200 (Some body)
       /\ extract_figma_summary body = Ok summary
       /\ log = [request cfg; generation json_dumps summary].
Proof.
  destruct all_set_dec as [H|H];
    [rewrite (configured_run H) | rewrite (unconfigured_run H); auto].
  destruct (requests_get _ _) as [status_code body|]; [|simpl; auto].
  destruct (Z.eqb_spec status_code 200) as [->|_]; [|simpl; auto].
  cbn [negb].
  destruct body as [figma_json|]; [|simpl; auto].
  destruct (extract_figma_summary figma_json) as [summary|] eqn:E;
    [|simpl; auto].
  right; right; exists figma_json, summary.
  destruct (collect _ _); simpl; auto.
Qed.

(** X7: a document is returned only at the end of the whole pipeline: the
    settings are there, the response was a 200 with a body the extractor
    summarised, and the generation ended without an exception; the
    document is then the report of the collected text, sent as
    application/pdf under the name figma_analysis.pdf. *)
Theorem document_requires_every_step :
  is_document
    (snd (analyze_figma requests_get generate_content json_dumps cfg)) = true ->
  all_set cfg
  /\ exists body summary analysis_text,
       requests_get (figma_url cfg) (figma_headers cfg)
       = Responded 200 (Some body)
       /\ extract_figma_summary body = Ok summary
       /\ collect "" (generate_content "models/gemini-2.0-flash-exp"
                        (prompt_of json_dumps summary)) = inl analysis_text
       /\ snd (analyze_figma requests_get generate_content json_dumps cfg)
          = Document (build_pdf analysis_text) "application/pdf"
              [("Content-Disposition",
                "attachment; filename=figma_analysis.pdf")].
Proof.
  destruct all_set_dec as [H|H];
    [rewrite (configured_run H) | rewrite (unconfigured_run H); discriminate].
  destruct (requests_get _ _) as [status_code body|]; [|discriminate].
  destruct (Z.eqb_spec status_code 200) as [->|_]; [|discriminate].
  cbn [negb].
  destruct body as [figma_json|]; [|discriminate].
  destruct (extract_figma_summary figma_json) as [summary|] eqn:E;
    [|discriminate].
  destruct (collect _ _) as [analysis_text|message] eqn:C; [|discriminate].
  intros _; split; [exact H|].
  exists figma_json, summary, analysis_text; auto.
Qed.

(** X8: conversely, with the settings there, a 200 response whose body the
    extractor summarises and a generation that delivers its chunks and
    ends, the handler returns the report of the concatenated chunks after
    exactly the two calls. *)
Theorem pipeline_succeeds (body summary : json) (texts : list string) :
  all_set cfg ->
  requests_get (figma_url cfg) (figma_headers cfg)
  = Responded 200 (Some body) ->
  extract_figma_summary body = Ok summary ->
  generate_content "models/gemini-2.0-flash-exp" (prompt_of json_dumps summary)
  = chunks texts StreamEnd ->
  analyze_figma requests_get generate_content json_dumps cfg
  = ([request cfg; generation json_dumps summary],
     Document (build_pdf (join texts)) "application/pdf"
       [("Content-Disposition", "attachment; filename=figma_analysis.pdf")]).
Proof.
  intros H Hr He Hg. rewrite (configured_run H), Hr, He, Hg; cbn [Z.eqb negb].
  now rewrite collect_chunks.
Qed.

(** X9: when the generation raises, at its start or after some chunks, the
    handler returns the payload whose ["error"] is "Gemini API error: "
    followed by the message of the exception; both calls were made and
    nothing of the text received is returned. *)
Theorem generation_failure_reported
        (body summary : json) (texts : list string) (message : string) :
  all_set cfg ->
  requests_get (figma_url cfg) (figma_headers cfg)
  = Responded 200 (Some body) ->
  extract_figma_summary body = Ok summary ->
  generate_content "models/gemini-2.0-flash-exp" (prompt_of json_dumps summary)
  = chunks texts (StreamError message) ->
  analyze_figma requests_get generate_content json_dumps cfg
  = ([request cfg; generation json_dumps summary],
     JsonPayload
       (JObj [("error", JStr ("Gemini API error: " ++ message)%string)])).
Proof.
  intros H Hr He Hg. rewrite (configured_run H), Hr, He, Hg; cbn [Z.eqb negb].
  now rewrite collect_chunks.
Qed.

(** X10: the handler catches the exceptions of the generation only.  A
    request that gets no response, a 200 response whose body is not JSON,
    and a body on which the extractor raises each leave the handler as an
    exception, after the design-file request alone. *)
Theorem exceptions_outside_try_escape :
  all_set cfg ->
  (requests_get (figma_url cfg) (figma_headers cfg) = NoResponse ->
   analyze_figma requests_get generate_content json_dumps cfg
   = ([request cfg], Unhandled RequestFailed))
  /\ (requests_get (figma_url cfg) (figma_headers cfg) = Responded 200 None ->
      analyze_figma requests_get generate_content json_dumps cfg
      = ([request cfg], Unhandled InvalidBody))
  /\ (forall body e,
        requests_get (figma_url cfg) (figma_headers cfg)
        = Responded 200 (Some body) ->
        extract_figma_summary body = Raise e ->
        analyze_figma requests_get generate_content json_dumps cfg
        = ([request cfg], Unhandled (SummaryFailed e))).
Proof.
  intros H; rewrite (configured_run H).
  split; [|split].
  - now intros ->.
  - now intros ->.
  - intros body e -> ->. reflexivity.
Qed.

End HandlerFacts.

Lemma settings_decide_first_call_witness :
  analyze_figma Samples.not_found Samples.silent Samples.no_dumps
    Samples.blank_token
  = ([], JsonPayload (JObj [("error", JStr "Missing env vars")]))
  /\ exists rest,
       fst (analyze_figma Samples.not_found Samples.silent Samples.no_dumps
              Samples.configured)
       = FigmaGet "https://api.figma.com/v1/files/file"
           [("X-Figma-Token", "token")] :: rest.
Proof.
  split.
  - apply (settings_decide_first_call Samples.not_found Samples.silent
             Samples.no_dumps Samples.blank_token).
    intros (H & _); discriminate.
  - apply (settings_decide_first_call Samples.not_found Samples.silent
             Samples.no_dumps Samples.configured).
    repeat split; reflexivity.
Defined.

Lemma document_requires_every_step_witness :
  all_set Samples.configured
  /\ exists body summary analysis_text,
       Samples.found (figma_url Samples.configured)
         (figma_headers Samples.configured)
       = Responded 200 (Some body)
       /\ extract_figma_summary body = Ok summary
       /\ collect "" (Samples.hello "models/gemini-2.0-flash-exp"
                        (prompt_of Samples.no_dumps summary))
          = inl analysis_text
       /\ snd (analyze_figma Samples.found Samples.hello Samples.no_dumps
                 Samples.configured)
          = Document (build_pdf analysis_text) "application/pdf"
              [("Content-Disposition",
                "attachment; filename=figma_analysis.pdf")].
Proof.
  apply (document_requires_every_step Samples.found Samples.hello
           Samples.no_dumps Samples.configured).
  reflexivity.
Defined.

Lemma pipeline_succeeds_witness :
  analyze_figma Samples.found Samples.hello Samples.no_dumps
    Samples.configured
  = ([request Samples.configured;
      generation Samples.no_dumps (summary_of Samples.small_file)],
     Document (build_pdf "Hello World!") "application/pdf"
       [("Content-Disposition", "attachment; filename=figma_analysis.pdf")]).
Proof.
  apply (pipeline_succeeds Samples.found Samples.hello Samples.no_dumps
           Samples.configured Samples.small_file
           (summary_of Samples.small_file) ["Hello "; "World"; "!"]);
    [repeat split; reflexivity | reflexivity | reflexivity | reflexivity].
Defined.

Lemma generation_failure_reported_witness :
  analyze_figma Samples.found Samples.refusing Samples.no_dumps
    Samples.configured
  = ([request Samples.configured;
      generation Samples.no_dumps (summary_of Samples.small_file)],
     JsonPayload (JObj [("error", JStr "Gemini API error: quota exceeded")])).
Proof.
  apply (generation_failure_reported Samples.found Samples.refusing
           Samples.no_dumps Samples.configured Samples.small_file
           (summary_of Samples.small_file) ["Hel"] "quota exceeded");
    [repeat split; reflexivity | reflexivity | reflexivity | reflexivity].
Defined.

Lemma exceptions_outside_try_escape_witness :
  analyze_figma Samples.found_list Samples.silent Samples.no_dumps
    Samples.configured
  = ([request Samples.configured], Unhandled (SummaryFailed AttributeError)).
Proof.
  destruct (exceptions_outside_try_escape Samples.found_list Samples.silent
              Samples.no_dumps Samples.configured) as (_ & _ & H);
    [repeat split; reflexivity|].
  apply (H (JArr [])); reflexivity.
Defined.

(** The 21st child of the page of [overfull_file] is a null: it is cut
    off before the loop reaches it. *)
Example extract_overfull_file :
  option_map (fun s => map (fun p => List.length (page_frames p))
                         (summary_pages s))
    (match extract_figma_summary Samples.overfull_file with
     | Ok s => Some s
     | Raise _ => None
     end)
  = Some [20%nat].
Proof. reflexivity. Qed.

(* ================================================================== *)
(** * More on the report *)

(** ** Splitting and joining *)

Lemma concat_cons (sep line : string) (lines : list string) :
  lines <> [] ->
  String.concat sep (line :: lines)
  = (line ++ sep ++ String.concat sep lines)%string.
Proof. destruct lines; [congruence | reflexivity]. Qed.

Lemma join_split (text : string) : String.concat nl (split text) = text.
Proof.
  induction text as [|c rest IH]; [reflexivity|].
  cbn [split]. destruct (Ascii.eqb_spec c newline) as [->|Hc].
  - rewrite concat_cons by apply split_not_nil. now rewrite IH.
  - destruct (split rest) as [|line lines] eqn:E;
      [now apply split_not_nil in E|].
    destruct lines as [|line' lines].
    + simpl in *. now rewrite IH.
    + rewrite (concat_cons nl (String c line)) by discriminate.
      rewrite (concat_cons nl line) in IH by discriminate.
      cbn [String.append]. now rewrite IH.
Qed.

Lemma length_split (text : string) :
  List.length (split text) = S (count_newlines text).
Proof.
  induction text as [|c rest IH]; [reflexivity|].
  cbn [split count_newlines]. destruct (Ascii.eqb c newline).
  - simpl. now rewrite IH.
  - destruct (split rest); simpl in *; lia.
Qed.

Lemma split_one_line (text : string) : Forall one_line (split text).
Proof.
  induction text as [|c rest IH]; [repeat constructor|].
  cbn [split]. destruct (Ascii.eqb c newline) eqn:Hc.
  - constructor; [reflexivity | exact IH].
  - destruct (split rest) as [|line lines].
    + repeat constructor. unfold one_line; simpl. now rewrite Hc.
    + inversion IH; subst. constructor; [|assumption].
      unfold one_line in *; simpl. now rewrite Hc.
Qed.

Lemma split_one (line : string) : one_line line -> split line = [line].
Proof.
  unfold one_line; induction line as [|c rest IH]; [reflexivity|].
  cbn [split count_newlines]. destruct (Ascii.eqb c newline); [discriminate|].
  intros H; now rewrite IH.
Qed.

Lemma split_append (line rest : string) :
  one_line line -> split (line ++ nl ++ rest) = line :: split rest.
Proof.
  unfold one_line; induction line as [|c line IH]; [reflexivity|].
  cbn [count_newlines]. destruct (Ascii.eqb c newline) eqn:Hc; [discriminate|].
  intros H; cbn [String.append split]. rewrite Hc.
  now rewrite (IH H).
Qed.

Lemma split_join (lines : list string) :
  lines <> [] -> Forall one_line lines ->
  split (String.concat nl lines) = lines.
Proof.
  induction lines as [|line lines IH]; [congruence|]. intros _ H.
  inversion H as [|? ? Hl Hr]; subst.
  destruct lines as [|line' lines]; [now apply split_one|].
  rewrite concat_cons by discriminate.
  rewrite split_append by assumption.
  now rewrite IH.
Qed.

(** X11: splitting a text and joining the pieces with line feeds gives the
    text back; the pieces are one more than the line feeds of the text and
    none contains a line feed; and a non-empty list of such pieces, joined,
    splits into itself. *)
Theorem split_inverts_join (text : string) (lines : list string) :
  String.concat nl (split text) = text
  /\ List.length (split text) = S (count_newlines text)
  /\ Forall one_line (split text)
  /\ (lines <> [] -> Forall one_line lines ->
      split (String.concat nl lines) = lines).
Proof.
  split; [apply join_split|].
  split; [apply length_split|].
  split; [apply split_one_line | apply split_join].
Qed.

Lemma split_inverts_join_witness :
  split (String.concat nl ["Summary"; ""; "ok"]) = ["Summary"; ""; "ok"].
Proof.
  destruct (split_inverts_join "" ["Summary"; ""; "ok"]) as (_ & _ & _ & H).
  apply H; [discriminate | repeat constructor].
Defined.

(** ** The pages as a function of the lines *)

Lemma draw_lines_layout (lines : list string) :
  forall (pdf : canvas) (y : Z),
    code pdf <> [] ->
    save (fst (draw_lines lines (pdf, y)))
    = pages pdf ++ (code pdf ++ map draw (fst (layout y lines)))
        :: map later_page (snd (layout y lines)).
Proof.
  induction lines as [|line lines IH]; intros pdf y Hc.
  - simpl. rewrite app_nil_r. now apply save_code.
  - rewrite draw_lines_cons; unfold draw_line; cbn [layout].
    destruct (Z.ltb_spec y 50) as [Hy|Hy].
    + rewrite IH by (simpl; discriminate).
      destruct (layout (800 - 15) lines) as [rows more]; simpl.
      now rewrite app_nil_r, <- app_assoc.
    + rewrite IH by (simpl; destruct (code pdf); discriminate).
      destruct (layout (y - 15) lines) as [rows more]; simpl.
      now rewrite <- app_assoc.
Qed.

Lemma build_pdf_layout (text : string) :
  build_pdf text
  = first_page (fst (layout 770 (split text)))
      :: map later_page (snd (layout 770 (split text))).
Proof.
  unfold build_pdf. rewrite draw_lines_layout by (simpl; discriminate).
  reflexivity.
Qed.

Lemma layout_sizes (lines : list string) :
  forall y,
    fits y (fst (layout y lines))
    /\ (snd (layout y lines) <> [] -> full y (fst (layout y lines)))
    /\ Forall (fun rows => rows <> [] /\ fits 800 rows) (snd (layout y lines))
    /\ all_but_last (full 800) (snd (layout y lines)).
Proof.
  unfold fits, full.
  induction lines as [|line lines IH]; intros y; cbn [layout].
  - simpl; repeat split; try congruence; constructor.
  - destruct (Z.ltb_spec y 50) as [Hy|Hy].
    + destruct (IH (800 - 15)%Z) as (Hf & Hl & Ha & Hb).
      destruct (layout (800 - 15) lines) as [rows more]; cbn [fst snd] in *.
      repeat split; try congruence.
      * simpl; lia.
      * constructor; [|exact Ha]. split; [discriminate|].
        intros _. cbn [List.length].
        destruct rows as [|r rows]; [simpl; lia|].
        specialize (Hf ltac:(discriminate)). lia.
      * cbn [all_but_last]. destruct more as [|m more]; [exact I|].
        split; [|exact Hb]. specialize (Hl ltac:(discriminate)).
        cbn [List.length]. lia.
    + destruct (IH (y - 15)%Z) as (Hf & Hl & Ha & Hb).
      destruct (layout (y - 15) lines) as [rows more]; cbn [fst snd] in *.
      repeat split; auto.
      * intros _. cbn [List.length].
        destruct rows as [|r rows]; [simpl; lia|].
        specialize (Hf ltac:(discriminate)). lia.
      * intros Hm. specialize (Hl Hm). cbn [List.length]. lia.
Qed.

Lemma layout_offsets (lines : list string) :
  forall y,
    Forall (fun r => 50 <= fst r <= y)%Z (fst (layout y lines))
    /\ Forall (Forall (fun r => 50 <= fst r <= 800)%Z) (snd (layout y lines)).
Proof.
  induction lines as [|line lines IH]; intros y; cbn [layout].
  - split; constructor.
  - destruct (Z.ltb_spec y 50) as [Hy|Hy].
    + destruct (IH (800 - 15)%Z) as [Hr Hm].
      destruct (layout (800 - 15) lines) as [rows more]; cbn [fst snd] in *.
      split; [constructor|]. constructor; [|exact Hm].
      constructor; [simpl; lia|].
      eapply Forall_impl; [|exact Hr]. simpl; intros; lia.
    + destruct (IH (y - 15)%Z) as [Hr Hm].
      destruct (layout (y - 15) lines) as [rows more]; cbn [fst snd] in *.
      split; [|exact Hm]. constructor; [simpl; lia|].
      eapply Forall_impl; [|exact Hr]. simpl; intros; lia.
Qed.

Lemma layout_first_row (lines : list string) (y : Z) :
  (50 <= y)%Z -> lines <> [] -> fst (layout y lines) <> [].
Proof.
  intros Hy Hl; destruct lines as [|line lines]; [congruence|].
  cbn [layout]. destruct (Z.ltb_spec y 50); [lia|].
  destruct (layout (y - 15) lines); discriminate.
Qed.

(** X12: every string of the document, title included, is drawn at x = 40
    and at a vertical offset between 50 and 800: the loop opens a page
    before it would draw below the bottom margin. *)
Theorem strings_stay_on_page (text : string) :
  Forall (fun p => p_x p = 40%Z /\ (50 <= p_y p <= 800)%Z)
    (flat_map placements (build_pdf text)).
Proof.
  rewrite build_pdf_layout; cbn [flat_map].
  rewrite placements_first_page, placements_later_pages; cbn [app].
  destruct (layout_offsets (split text) 770) as [Hr Hm].
  constructor; [simpl; lia|].
  apply Forall_app; split.
  - apply Forall_map_intro_in; intros r Hin.
    rewrite Forall_forall in Hr. specialize (Hr r Hin). simpl; lia.
  - apply Forall_map_intro_in; intros r Hin.
    apply in_concat in Hin as (rows & Hrows & Hin).
    rewrite Forall_forall in Hm. specialize (Hm rows Hrows).
    rewrite Forall_forall in Hm. specialize (Hm r Hin). simpl; lia.
Qed.

Lemma length_analysis_first (rows : list row) :
  List.length (analysis_lines (first_page rows)) = List.length rows.
Proof. now rewrite analysis_first_page, length_map. Qed.

Lemma length_analysis_later (rows : list row) :
  List.length (analysis_lines (later_page rows)) = List.length rows.
Proof. now rewrite analysis_later_page, length_map. Qed.

Lemma page_sizes_layout (text : string) :
  page_sizes (build_pdf text)
  = List.length (fst (layout 770 (split text)))
      :: map (@List.length row) (snd (layout 770 (split text))).
Proof.
  rewrite build_pdf_layout; unfold page_sizes; cbn [map].
  rewrite length_analysis_first, map_map.
  f_equal. apply map_ext, length_analysis_later.
Qed.

Lemma all_but_last_map {A B} (P : B -> Prop) (f : A -> B) (l : list A) :
  all_but_last (fun x => P (f x)) l -> all_but_last P (map f l).
Proof.
  induction l as [|x l IH]; [auto|].
  destruct l as [|x' l]; [auto|].
  intros [Hx Hl]; split; [exact Hx | exact (IH Hl)].
Qed.

Lemma all_but_last_impl {A} (P Q : A -> Prop) (l : list A) :
  Forall (fun x => P x -> Q x) l -> all_but_last P l -> all_but_last Q l.
Proof.
  induction l as [|x l IH]; [auto|].
  destruct l as [|x' l]; [auto|].
  intros H [Hx Hl]; inversion H; subst. split; auto.
Qed.

Lemma pages_filled_to_capacity_aux (text : string) :
  exists (n : nat) (ns : list nat),
    page_sizes (build_pdf text) = n :: ns
    /\ (1 <= n <= 49)%nat
    /\ Forall (fun k => 1 <= k <= 51)%nat ns
    /\ (ns <> [] -> n = 49%nat)
    /\ all_but_last (fun k => k = 51%nat) ns.
Proof.
  rewrite page_sizes_layout.
  destruct (layout_sizes (split text) 770) as (Hf & Hl & Ha & Hb).
  pose proof (layout_first_row (split text) 770 ltac:(lia)
                (split_not_nil text)) as Hn.
  unfold fits, full in *.
  destruct (layout 770 (split text)) as [rows more]; cbn [fst snd] in *.
  do 2 eexists; split; [reflexivity|].
  specialize (Hf Hn).
  assert (Hpos : (1 <= List.length rows)%nat).
  { destruct rows; [congruence | cbn [List.length]; lia]. }
  split; [lia|]. split; [|split].
  - apply Forall_map_intro_in; intros rs Hin.
    rewrite Forall_forall in Ha. destruct (Ha rs Hin) as [Hne Hfit].
    specialize (Hfit Hne). destruct rs; [congruence|].
    cbn [List.length] in *. lia.
  - intros Hm. assert (Hmore : more <> []) by (destruct more; [auto | discriminate]).
    specialize (Hl Hmore). lia.
  - apply all_but_last_map.
    eapply all_but_last_impl; [|exact Hb].
    apply Forall_forall; intros rs Hin Hfull.
    rewrite Forall_forall in Ha. destruct (Ha rs Hin) as [Hne Hfit].
    specialize (Hfit Hne). lia.
Qed.

(** X13: the first page of the document holds between 1 and 49 analysis
    lines, every other page between 1 and 51, and every page but the last
    is filled to that capacity: 49 under the title, 51 on a later page. *)
Theorem pages_filled_to_capacity (text : string) :
  exists (n : nat) (ns : list nat),
    page_sizes (build_pdf text) = n :: ns
    /\ (1 <= n <= 49)%nat
    /\ Forall (fun k => 1 <= k <= 51)%nat ns
    /\ (ns <> [] -> n = 49%nat)
    /\ all_but_last (fun k => k = 51%nat) ns.
Proof. exact (pages_filled_to_capacity_aux text). Qed.

Lemma sum_of_full_pages (ns : list nat) :
  ns <> [] ->
  Forall (fun k => 1 <= k <= 51)%nat ns ->
  all_but_last (fun k => k = 51%nat) ns ->
  (51 * (List.length ns - 1) < list_sum ns <= 51 * List.length ns)%nat.
Proof.
  induction ns as [|k ns IH]; [congruence|]. intros _ Hr Ha.
  inversion Hr as [|? ? Hk Hr']; subst.
  destruct ns as [|k' ns]; [simpl; lia|].
  destruct Ha as [-> Ha'].
  specialize (IH ltac:(discriminate) Hr' Ha').
  change (list_sum (51 :: k' :: ns))%nat
    with (51 + list_sum (k' :: ns))%nat.
  cbn [List.length] in *. lia.
Qed.

Lemma sum_page_sizes (text : string) :
  list_sum (page_sizes (build_pdf text)) = List.length (split text).
Proof.
  unfold page_sizes. rewrite <- length_flat_map.
  rewrite <- (length_map truncate (split text)), <- placed_truncated.
  unfold placed_lines. now rewrite length_map.
Qed.

(** X14: a text of n lines makes a document of 1 + (n - 49 + 50) / 51
    pages (natural-number subtraction and division): one page up to 49
    lines, and one more for every 51 lines, or part of 51, beyond. *)
Theorem page_count (text : string) :
  List.length (build_pdf text)
  = (1 + (List.length (split text) - 49 + 50) / 51)%nat.
Proof.
  destruct (pages_filled_to_capacity_aux text) as (n & ns & E & Hn & Hr & Hf & Ha).
  pose proof (sum_page_sizes text) as Hsum.
  assert (L : List.length (build_pdf text) = S (List.length ns)).
  { unfold page_sizes in E.
    rewrite <- (length_map (fun p => List.length (analysis_lines p))), E.
    reflexivity. }
  rewrite E in Hsum.
  change (list_sum (n :: ns)) with (n + list_sum ns)%nat in Hsum.
  rewrite L, <- Hsum.
  destruct ns as [|k ns'] eqn:Ens.
  - change (list_sum (@nil nat)) with 0%nat. cbn [List.length].
    rewrite Nat.div_small; lia.
  - rewrite <- Ens in *.
    assert (Hne : ns <> []) by (rewrite Ens; discriminate).
    specialize (Hf Hne).
    pose proof (sum_of_full_pages ns Hne Hr Ha) as B.
    assert (Hl : (1 <= List.length ns)%nat).
    { rewrite Ens; simpl; lia. }
    assert (D : ((n + list_sum ns - 49 + 50) / 51 = List.length ns)%nat).
    { symmetry.
      apply (Nat.div_unique _ _ _
               (n + list_sum ns - 49 + 50 - 51 * List.length ns)); lia. }
    rewrite D. lia.
Qed.

Lemma pages_filled_to_capacity_witness :
  exists (n : nat) (ns : list nat),
    page_sizes (build_pdf Samples.fifty_lines) = n :: ns
    /\ ns <> [] /\ n = 49%nat.
Proof.
  destruct (pages_filled_to_capacity Samples.fifty_lines)
    as (n & ns & E & _ & _ & H & _).
  exists n, ns.
  assert (Hne : ns <> []).
  { vm_compute in E. injection E as _ <-. discriminate. }
  auto.
Defined.

(** X15: the title is the first string of the document, set in
    Helvetica-Bold 16 at (40, 800), and every string after it, on every
    page, is set in Helvetica 10: the body font is set again after each
    page break, so no line is drawn in the canvas's initial font. *)
Theorem body_font_on_every_page (text : string) :
  exists rest,
    flat_map placements (build_pdf text)
    = Placement "Helvetica-Bold" 16 40 800 "Figma Design Analysis Report"
        :: rest
    /\ Forall (fun p => p_font p = "Helvetica" /\ p_size p = 10%Z) rest
    /\ map p_text rest = map truncate (split text).
Proof.
  destruct (build_pdf_pages text) as (rows & more & -> & Ht & _).
  cbn [flat_map].
  rewrite placements_first_page, placements_later_pages; cbn [app].
  rewrite <- map_app. eexists; split; [reflexivity|]. split.
  - apply Forall_map_intro. intros r; split; reflexivity.
  - now rewrite text_of_rows.
Qed.

Lemma prefix_of_append (a b : string) :
  substring 0 (String.length a) (a ++ b) = a.
Proof. induction a as [|c a IH]; simpl; [now destruct b | now rewrite IH]. Qed.

(** X16: truncating a line never lengthens it, leaves its first 87
    characters in place, and changes nothing when applied a second time. *)
Theorem truncate_keeps_prefix (line : string) :
  (String.length (truncate line) <= String.length line)%nat
  /\ substring 0 87 (truncate line) = substring 0 87 line
  /\ truncate (truncate line) = truncate line.
Proof.
  split; [|split].
  - destruct (Nat.le_gt_cases (String.length line) 90) as [H|H].
    + now rewrite truncate_short.
    + destruct (truncate_long line H) as [_ ->]. lia.
  - destruct (Nat.le_gt_cases (String.length line) 90) as [H|H].
    + now rewrite truncate_short.
    + destruct (truncate_long line H) as [-> _].
      assert (L : String.length (substring 0 87 line) = 87%nat).
      { rewrite length_prefix. lia. }
      rewrite <- L at 1. now rewrite prefix_of_append.
  - apply truncate_short, length_truncate.
Qed.

(* ================================================================== *)
(** * The [/models] and [/fetch] routes *)

Import Routes.

Lemma gather_listed (models : list (string * string * list string))
      (tail : listing) :
  forall model_list,
    gather model_list (listed models tail)
    = gather (model_list ++ map entry_of models) tail.
Proof.
  induction models as [|[[n d] ms] models IH]; intros acc; simpl.
  - now rewrite app_nil_r.
  - now rewrite IH, <- app_assoc.
Qed.

(** X17: [/models] asks for the listing only when the API key is set;
    without it the payload is the Missing GEMINI_API_KEY error.  With it, a
    listing that ends normally gives one entry per model, in the order of
    the listing, with its name, display name and supported methods; a
    listing that raises, even after some models, gives only the message of
    the exception. *)
Theorem models_listed_in_order
        (key : option string)
        (models : list (string * string * list string)) (message : string) :
  (unset key = true ->
   forall listing,
     list_gemini_models key listing
     = (false, JObj [("error", JStr "Missing GEMINI_API_KEY")]))
  /\ (unset key = false ->
      list_gemini_models key (listed models ListEnd)
      = (true, JObj [("models", JArr (map entry_of models))])
      /\ list_gemini_models key (listed models (ListError message))
         = (true, JObj [("error", JStr message)])).
Proof.
  unfold list_gemini_models; split; intros ->; [reflexivity|].
  now rewrite !gather_listed.
Qed.

Lemma models_listed_in_order_witness :
  list_gemini_models (Some "")
    (ListModel "models/a" "A" ["generateContent"] ListEnd)
  = (false, JObj [("error", JStr "Missing GEMINI_API_KEY")])
  /\ list_gemini_models (Some "key")
       (ListModel "models/a" "A" ["generateContent"]
          (ListModel "models/b" "B" [] ListEnd))
     = (true,
        JObj [("models",
               JArr [JObj [("name", JStr "models/a");
                           ("display_name", JStr "A");
                           ("supported_methods",
                            JArr [JStr "generateContent"])];
                     JObj [("name", JStr "models/b");
                           ("display_name", JStr "B");
                           ("supported_methods", JArr [])]])])
  /\ list_gemini_models (Some "key")
       (ListModel "models/a" "A" ["generateContent"] (ListError "denied"))
     = (true, JObj [("error", JStr "denied")]).
Proof.
  split; [|split].
  - apply (models_listed_in_order (Some "") [] ""). reflexivity.
  - apply (models_listed_in_order (Some "key")
             [("models/a", "A", ["generateContent"]); ("models/b", "B", [])]
             ""). reflexivity.
  - apply (models_listed_in_order (Some "key")
             [("models/a", "A", ["generateContent"])] "denied").
    reflexivity.
Defined.

Section FetchFacts.

Variable requests_get : string -> list (string * string) -> reply.
Variable json_dumps : json -> string.
Variable cfg : env.

(** X18: [/fetch] needs the token and the file key only.  When one of the
    two is unset it returns its error payload without a call and without
    printing, as [/analysis] returns its own; when only the API key of the
    generative service is unset, [/fetch] still puts its request while
    [/analysis] makes no call. *)
Theorem fetch_needs_two_settings
        (get : string -> list (string * string) -> fetched)
        (generate_content : string -> string -> stream) :
  (unset (FIGMA_TOKEN cfg) = true \/ unset (FILE_KEY cfg) = true ->
   get_figma_json requests_get json_dumps cfg
   = Run [] []
       (Returned
          (JObj [("error", JStr "Missing FIGMA_TOKEN or FILE_KEY in .env")]))
   /\ analyze_figma get generate_content json_dumps cfg
      = ([], JsonPayload (JObj [("error", JStr "Missing env vars")])))
  /\ (unset (FIGMA_TOKEN cfg) = false -> unset (FILE_KEY cfg) = false ->
      unset (GEMINI_API_KEY cfg) = true ->
      calls (get_figma_json requests_get json_dumps cfg) = [request cfg]
      /\ analyze_figma get generate_content json_dumps cfg
         = ([], JsonPayload (JObj [("error", JStr "Missing env vars")]))).
Proof.
  split.
  - intros H; split.
    + unfold get_figma_json; destruct H as [-> | ->]; [reflexivity|].
      now rewrite orb_true_r.
    + apply unconfigured_run. intros (Ht & Hf & _).
      destruct H as [H|H]; congruence.
  - intros Ht Hf Hg; split.
    + unfold get_figma_json. rewrite Ht, Hf; cbn [orb].
      destruct (requests_get _ _) as [status_code text body|]; [|reflexivity].
      destruct (Z.eqb status_code 200); [destruct body|]; reflexivity.
    + apply unconfigured_run. intros (_ & _ & H). congruence.
Qed.

(** X19: with the two settings there, [/fetch] makes the one design-file
    request.  A status other than 200 gives the payload whose ["error"]
    ends with the status in decimal, prints the status and the response
    text, and the body is not read; a 200 whose body parses prints its dump
    and answers ok; a 200 whose body does not parse raises. *)
Theorem fetch_reports_status
        (status_code : Z) (text : string) (body : option json) :
  unset (FIGMA_TOKEN cfg) = false -> unset (FILE_KEY cfg) = false ->
  requests_get (figma_url cfg) (figma_headers cfg)
  = Reply status_code text body ->
  calls (get_figma_json requests_get json_dumps cfg) = [request cfg]
  /\ (status_code <> 200%Z ->
      get_figma_json requests_get json_dumps cfg
      = Run [request cfg]
          ["Fetching Figma MCP JSON...";
           ("Error " ++ str_int status_code ++ ": " ++ text)%string]
          (Returned
             (JObj [("error",
                     JStr ("Failed to fetch JSON - "
                           ++ str_int status_code)%string)])))
  /\ (status_code = 200%Z ->
      get_figma_json requests_get json_dumps cfg
      = match body with
        | Some data =>
            Run [request cfg]
              ["Fetching Figma MCP JSON..."; "MCP JSON Output:";
               json_dumps data]
              (Returned
                 (JObj [("status", JStr "ok");
                        ("message", JStr "MCP JSON printed to console")]))
        | None =>
            Run [request cfg] ["Fetching Figma MCP JSON..."]
              (Raised InvalidBody)
        end).
Proof.
  intros Ht Hf Hr; unfold get_figma_json.
  rewrite Ht, Hf; cbn [orb].
  fold (figma_url cfg) (figma_headers cfg). rewrite Hr.
  split; [|split].
  - destruct (Z.eqb status_code 200); [destruct body|]; reflexivity.
  - intros Hs; apply Z.eqb_neq in Hs; now rewrite Hs.
  - intros ->; cbn [Z.eqb Pos.eqb]. destruct body; reflexivity.
Qed.

(** X20: [/fetch] and [/analysis] put the same request to the design-file
    service, and read its status alike: when [/fetch] reports a status
    other than 200, [/analysis], given the same response, answers
    "failed to fetch figma" after that request alone. *)
Theorem fetch_and_analysis_agree
        (generate_content : string -> string -> stream)
        (dumps : json -> string)
        (status_code : Z) (text : string) (body : option json) :
  all_set cfg ->
  requests_get (figma_url cfg) (figma_headers cfg)
  = Reply status_code text body ->
  status_code <> 200%Z ->
  result (get_figma_json requests_get json_dumps cfg)
  = Returned
      (JObj [("error",
              JStr ("Failed to fetch JSON - " ++ str_int status_code)%string)])
  /\ analyze_figma (fun url headers => fetched_of (requests_get url headers))
       generate_content dumps cfg
     = (calls (get_figma_json requests_get json_dumps cfg),
        JsonPayload (JObj [("error", JStr "failed to fetch figma")])).
Proof.
  intros H Hr Hs. pose proof H as (Ht & Hf & _).
  rewrite (configured_run _ generate_content dumps cfg H), Hr.
  cbn [fetched_of]. apply Z.eqb_neq in Hs. rewrite Hs; cbn [negb].
  unfold get_figma_json. rewrite Ht, Hf; cbn [orb].
  fold (figma_url cfg) (figma_headers cfg). rewrite Hr, Hs.
  split; reflexivity.
Qed.

End FetchFacts.

Example str_int_404 : str_int 404 = "404".
Proof. reflexivity. Qed.

Lemma fetch_needs_two_settings_witness :
  get_figma_json Replies.delivered Samples.no_dumps Samples.blank_token
  = Run [] []
      (Returned
         (JObj [("error", JStr "Missing FIGMA_TOKEN or FILE_KEY in .env")]))
  /\ calls (get_figma_json Replies.delivered Samples.no_dumps
              Replies.no_gemini_key)
     = [request Replies.no_gemini_key]
  /\ analyze_figma Samples.found Samples.hello Samples.no_dumps
       Replies.no_gemini_key
     = ([], JsonPayload (JObj [("error", JStr "Missing env vars")])).
Proof.
  destruct (fetch_needs_two_settings Replies.delivered Samples.no_dumps
              Samples.blank_token Samples.found Samples.hello) as [H _].
  destruct (fetch_needs_two_settings Replies.delivered Samples.no_dumps
              Replies.no_gemini_key Samples.found Samples.hello) as [_ H'].
  split; [apply H; left; reflexivity|].
  apply H'; reflexivity.
Defined.

Lemma fetch_reports_status_witness :
  get_figma_json Replies.forbidden Samples.no_dumps Replies.no_gemini_key
  = Run [FigmaGet "https://api.figma.com/v1/files/file"
           [("X-Figma-Token", "token")]]
      ["Fetching Figma MCP JSON..."; "Error 403: Invalid token"]
      (Returned (JObj [("error", JStr "Failed to fetch JSON - 403")])).
Proof.
  destruct (fetch_reports_status Replies.forbidden Samples.no_dumps
              Replies.no_gemini_key 403 "Invalid token" None
              eq_refl eq_refl eq_refl) as (_ & H & _).
  apply H. discriminate.
Defined.

Lemma fetch_and_analysis_agree_witness :
  analyze_figma
    (fun url headers => fetched_of (Replies.forbidden url headers))
    Samples.silent Samples.no_dumps Samples.configured
  = ([FigmaGet "https://api.figma.com/v1/files/file"
        [("X-Figma-Token", "token")]],
     JsonPayload (JObj [("error", JStr "failed to fetch figma")])).
Proof.
  destruct (fetch_and_analysis_agree Replies.forbidden Samples.no_dumps
              Samples.configured Samples.silent Samples.no_dumps
              403 "Invalid token" None) as [_ H];
    [repeat split; reflexivity | reflexivity | discriminate |].
  exact H.
Defined.
